(** * Tools/build_hanja_db.py: the hanja.txt line parser and the SQLite builder

    A shallow embedding of [parse_hanja_line] and [build_database].

    Python text is a sequence of Unicode code points, so a [str] is a list of
    code points ([N]).  The parser is a pure function on one line.  The
    builder is written in a small state-and-exception monad over a file
    system: an exception keeps the effects performed before it, which is what
    decides what is left at the output path when a build aborts. *)

From stdpp Require Import gmap strings list.
From Stdlib Require Import NArith ZArith Ascii.

Local Open Scope N_scope.

(** ** Python [str] operations used by the script *)

Module PyStr.

Definition str : Type := list N.

(** Code points [str.strip()] removes when called without an argument: the
    characters for which [str.isspace] holds. *)
Definition isspace (c : N) : bool :=
  ((0x09 <=? c) && (c <=? 0x0D))
  || ((0x1C <=? c) && (c <=? 0x20))
  || (c =? 0x85) || (c =? 0xA0) || (c =? 0x1680)
  || ((0x2000 <=? c) && (c <=? 0x200A))
  || (c =? 0x2028) || (c =? 0x2029) || (c =? 0x202F)
  || (c =? 0x205F) || (c =? 0x3000).

Fixpoint lstrip (s : str) : str :=
  match s with
  | [] => []
  | c :: s' => if isspace c then lstrip s' else s
  end.

Definition rstrip (s : str) : str := rev (lstrip (rev s)).

(** [s.strip()] *)
Definition strip (s : str) : str := rstrip (lstrip s).

(** [s.startswith(p)] *)
Fixpoint startswith (s p : str) {struct p} : bool :=
  match p, s with
  | [], _ => true
  | _ :: _, [] => false
  | a :: p', c :: s' => (c =? a) && startswith s' p'
  end.

(** [s.split(sep)] for a separator of one code point: every occurrence of
    [sep] ends a field, empty fields are kept, and there is always at least
    one field. *)
Fixpoint split (sep : N) (s : str) : list str :=
  match s with
  | [] => [[]]
  | c :: s' =>
      if c =? sep then [] :: split sep s'
      else match split sep s' with
           | [] => [[c]]
           | f :: fs => (c :: f) :: fs
           end
  end.

(** Truthiness of a string: [not s] holds exactly for the empty string. *)
Definition is_empty (s : str) : bool :=
  match s with [] => true | _ :: _ => false end.

(** An ASCII literal as a [str]. *)
Definition lit (s : string) : str := map N_of_ascii (String.list_ascii_of_string s).

Definition colon : N := 0x3A.
Definition hash : N := 0x23.
Definition LF : N := 0x0A.
Definition CR : N := 0x0D.

End PyStr.

Import PyStr.

(** ** [parse_hanja_line] *)

Definition entry : Type := str * str * str.

Definition parse_hanja_line (line : str) : option entry :=
  let line := strip line in
  if is_empty line || startswith line [hash] then None
  else
    let parts := split colon line in
    if (length parts <? 3)%nat then None
    else
      match parts with
      | p0 :: p1 :: p2 :: _ =>
          let hangul := strip p0 in
          let hanja := strip p1 in
          let meaning := strip p2 in
          if is_empty hangul || is_empty hanja then None
          else Some (hangul, hanja, meaning)
      | _ => None
      end.

(** ** Text files as Python reads them

    [open(path, "r", encoding="utf-8")] decodes the file and translates the
    line endings "\r\n" and "\r" to "\n" (universal newlines); iterating over
    the file yields the lines with their terminating "\n". *)

Fixpoint translate_newlines (s : str) : str :=
  match s with
  | [] => []
  | c :: s' =>
      if c =? CR then
        LF :: match s' with
              | [] => []
              | d :: s'' => if d =? LF then translate_newlines s''
                            else translate_newlines s'
              end
      else c :: translate_newlines s'
  end.

Fixpoint iter_lines (s : str) : list str :=
  match s with
  | [] => []
  | c :: s' =>
      if c =? LF then [c] :: iter_lines s'
      else match iter_lines s' with
           | [] => [[c]]
           | l :: ls => (c :: l) :: ls
           end
  end.

Definition text_lines (content : str) : list str :=
  iter_lines (translate_newlines content).

(** ** The SQLite file

    One table [hanja] with the columns of the CREATE TABLE statement, and the
    index on [hangul].  [sequence] is the AUTOINCREMENT counter (the largest
    id handed out so far). *)

Record row : Type := Row {
  id : Z;
  hangul : str;
  hanja : str;
  meaning : str;
  frequency : Z
}.

Record database : Type := Database {
  has_table : bool;
  has_index : bool;
  rows : list row;
  sequence : Z
}.

(** What [sqlite3.connect] creates at a path that holds nothing. *)
Definition empty_database : database := Database false false [] 0.

(** ** The file system

    A text file is its decoded content together with how reading ends: at the
    end of the file, or with bytes that are not UTF-8 (the iteration raises
    after the lines of [content]).  [Unreadable] is a file that exists but
    that the process may not open. *)

Inductive read_end : Type := EndOfFile | DecodeFailure.

Inductive file : Type :=
  | TextFile (content : str) (ending : read_end)
  | DbFile (db : database)
  | Unreadable.

Inductive exn : Type :=
  | FileNotFoundError
  | PermissionError
  | UnicodeDecodeError
  | OperationalError
  | DatabaseError
  | IsADirectoryError.

Inductive outcome (A : Type) : Type :=
  | Returned (a : A)
  | Raised (e : exn).
Arguments Returned {A} a.
Arguments Raised {A} e.

(** A computation runs on the file system and either returns or raises; in
    both cases the file system it leaves is the one it reached. *)
Definition io (A : Type) : Type :=
  gmap string file → outcome A * gmap string file.

Definition io_ret {A} (a : A) : io A := λ fs, (Returned a, fs).

Definition io_bind {A B} (m : io A) (k : A → io B) : io B :=
  λ fs, match m fs with
        | (Returned a, fs') => k a fs'
        | (Raised e, fs') => (Raised e, fs')
        end.

Definition raise {A} (e : exn) : io A := λ fs, (Raised e, fs).

#[global] Instance io_mret : MRet io := @io_ret.
#[global] Instance io_mbind : MBind io := λ A B k m, io_bind m k.

Definition read_file (p : string) : io (option file) :=
  λ fs, (Returned (fs !! p), fs).

Definition write_file (p : string) (f : file) : io unit :=
  λ fs, (Returned tt, <[p := f]> fs).

(** [os.path.exists] and [os.remove], among regular files in a directory
    that can be written: the removal of an existing file is not refused
    ([Located.os_remove] has the refusals). *)
Definition os_path_exists (p : string) : io bool :=
  f ← read_file p;
  io_ret (match f with Some _ => true | None => false end).

Definition os_remove (p : string) : io unit :=
  λ fs, match fs !! p with
        | Some _ => (Returned tt, delete p fs)
        | None => (Raised FileNotFoundError, fs)
        end.

(** ** The [sqlite3] module, as far as the script uses it

    A connection works on the file at its path.  Outside a transaction a
    statement is written to the file at once (this is how the two schema
    statements run: the module opens no transaction for them).  Before an
    INSERT the module opens a transaction; from then on the statements change
    the connection's working copy [txn], which reaches the file only at
    [commit].  A connection that is closed or dropped with an open
    transaction leaves the file as it was.

    [DbFile d] is the database as a reader of the file finds it.  The
    rollback journal SQLite keeps beside the file while a transaction is
    open, and the pages it may write ahead of the commit and undo from that
    journal, lie below this view.  [sqlite3_connect] creates the file at a
    free path, which takes a directory that exists and can be written
    ([Located.sqlite3_connect] has the refusals). *)

Record connection : Type := Connection {
  db_path : string;
  txn : option database
}.

Definition sqlite3_connect (p : string) : io connection :=
  f ← read_file p;
  match f with
  | None => write_file p (DbFile empty_database) ;; io_ret (Connection p None)
  | Some Unreadable => raise OperationalError
  | Some _ => io_ret (Connection p None)
  end.

(** The database a statement of connection [c] sees. *)
Definition conn_view (c : connection) : io database :=
  match txn c with
  | Some d => io_ret d
  | None =>
      f ← read_file (db_path c);
      match f with
      | Some (DbFile d) => io_ret d
      | Some (TextFile _ _) => raise DatabaseError
      | Some Unreadable | None => raise OperationalError
      end
  end.

(** Storing the database a statement produced. *)
Definition conn_store (c : connection) (d : database) : io connection :=
  match txn c with
  | Some _ => io_ret (Connection (db_path c) (Some d))
  | None => write_file (db_path c) (DbFile d) ;; io_ret c
  end.

(** [CREATE TABLE hanja (...)] *)
Definition execute_create_table (c : connection) : io connection :=
  d ← conn_view c;
  if has_table d then raise OperationalError
  else conn_store c (Database true (has_index d) (rows d) (sequence d)).

(** [CREATE INDEX idx_hanja_hangul ON hanja(hangul)] *)
Definition execute_create_index (c : connection) : io connection :=
  d ← conn_view c;
  if negb (has_table d) || has_index d then raise OperationalError
  else conn_store c (Database (has_table d) true (rows d) (sequence d)).

(** [INSERT INTO hanja (hangul, hanja, meaning, frequency) VALUES (?, ?, ?, 0)]
    with the entry as parameters: the new row gets the next id and the
    frequency 0 written in the statement. *)
Definition execute_insert (c : connection) (e : entry) : io connection :=
  d ← conn_view c;
  if negb (has_table d) then raise OperationalError
  else
    let '(hg, hj, mn) := e in
    let i := (sequence d + 1)%Z in
    io_ret (Connection (db_path c)
              (Some (Database (has_table d) (has_index d)
                       (rows d ++ [Row i hg hj mn 0]) i))).

Definition conn_commit (c : connection) : io connection :=
  match txn c with
  | Some d => write_file (db_path c) (DbFile d) ;;
              io_ret (Connection (db_path c) None)
  | None => io_ret c
  end.

Definition conn_close (c : connection) : io unit := io_ret tt.

(** ** [build_database] *)

Section Builder.

(** What reading a database file as UTF-8 text yields.  It only matters when
    the input path and the output path are the same file; the SQLite file
    format is not modelled, so the result is left open. *)
Variable db_as_text : database → str * read_end.

(** [open(input_path, "r", encoding="utf-8")] *)
Definition open_text (p : string) : io (str * read_end) :=
  f ← read_file p;
  match f with
  | None => raise FileNotFoundError
  | Some Unreadable => raise PermissionError
  | Some (TextFile content ending) => io_ret (content, ending)
  | Some (DbFile d) => io_ret (db_as_text d)
  end.

(** The body of [for line in f]. *)
Fixpoint insert_lines (lines : list str) (c : connection) (count : Z)
  : io (connection * Z) :=
  match lines with
  | [] => io_ret (c, count)
  | line :: rest =>
      match parse_hanja_line line with
      | Some e =>
          c' ← execute_insert c e;
          insert_lines rest c' (count + 1)%Z
      | None => insert_lines rest c count
      end
  end.

(** The result is the number printed on the [Entries:] line.  The [Size:]
    line depends on the byte layout of the SQLite file and is left out. *)
Definition build_database (input_path output_path : string) : io Z :=
  ex ← os_path_exists output_path;
  (if (ex : bool) then os_remove output_path else io_ret tt) ;;
  c ← sqlite3_connect output_path;
  c ← execute_create_table c;
  c ← execute_create_index c;
  '(c, count) ←
     ('(content, ending) ← open_text input_path;
      '(c, count) ← insert_lines (text_lines content) c 0%Z;
      match ending with
      | EndOfFile => io_ret (c, count)
      | DecodeFailure => raise UnicodeDecodeError
      end);
  c ← conn_commit c;
  conn_close c ;;
  io_ret count.

End Builder.

(** Modelled from the spec: the lookup of the downstream consumer, which is
    not part of this script.  The index on [hangul] exists to return all the
    records of one reading (spec 4.2 step 3, P5). *)
Definition lookup_hangul (d : database) (h : str) : list row :=
  filter (λ r, hangul r = h) (rows d).

(** The record an accepted entry becomes when it is the [i]-th insertion
    into a fresh table. *)
Definition record_of (i : Z) (e : entry) : row :=
  let '(hg, hj, mn) := e in Row i hg hj mn 0.

(** The entries of a whole text, in input order. *)
Definition parse_all (content : str) : list entry :=
  omap parse_hanja_line (text_lines content).

(** The rows that inserting [es] appends when the largest id so far is [i]. *)
Fixpoint records_from (i : Z) (es : list entry) : list row :=
  match es with
  | [] => []
  | e :: es' => record_of (i + 1) e :: records_from (i + 1) es'
  end.

(** The database after inserting [es], one INSERT each, in order. *)
Definition insert_all (d : database) (es : list entry) : database :=
  Database (has_table d) (has_index d)
    (rows d ++ records_from (sequence d) es)
    (sequence d + Z.of_nat (length es)).

(** The database right after the two schema statements. *)
Definition schema_only : database := Database true true [] 0.

(** The columns of a record other than its id. *)
Definition columns (r : row) : str * str * str * Z :=
  (hangul r, hanja r, meaning r, frequency r).

(** A field without a colon and without white space at either end. *)
Definition clean (s : str) : Prop :=
  (colon ∉ s)
  ∧ (∀ c, head s = Some c → isspace c = false)
  ∧ (∀ c, last s = Some c → isspace c = false).

Definition well_formed (e : entry) : Prop :=
  let '(hg, hj, mn) := e in
  clean hg ∧ clean hj ∧ clean mn ∧ hg ≠ [] ∧ hj ≠ [].


(** The text of the end-to-end scenario of the spec (section 8). *)
Definition ga : N := 0xAC00.
Definition na : N := 0xB098.
Definition da : N := 0xB2E4.

Definition e2e_text : str :=
  [ga; colon] ++ lit "family:false reading example" ++ [LF]
  ++ lit "# comment line" ++ [LF]
  ++ [ga; colon; 0x6687; colon] ++ lit "leisure" ++ [LF]
  ++ lit "malformed line without colons" ++ [LF]
  ++ [na; colon; 0x90A3; colon] ++ lit "that" ++ [LF].

(** For the examples: a reading of database files as text that fails to
    decode at once. *)
Definition binary_garbage (d : database) : str * read_end :=
  ([], DecodeFailure).

(** For the examples: a file system with the scenario's text as input and
    an older database, holding one record, at the output path. *)
Definition old_db : database :=
  Database true true [Row 1 (lit "x") (lit "y") (lit "stale") 7] 1.

Definition e2e_fs : gmap string file :=
  {[ "hanja.txt" := TextFile e2e_text EndOfFile;
     "hanja.db" := DbFile old_db ]}.

Definition e2e_db : database := insert_all schema_only (parse_all e2e_text).

(** ** [download_hanja_txt] and [main]

    What the script's surroundings supply is taken as given: what the
    libhangul URL answers, the name [tempfile] picks for the download (a name
    that is free), and the default output path that [main] derives from the
    script's own location. *)

Inductive response : Type :=
  | NoResponse
  | Complete (content : str) (ending : read_end)
  | Truncated (content : str) (ending : read_end).

Inductive download_exn : Type := URLError | ContentTooShortError.

(** How a run of the script ends. *)
Inductive exit : Type :=
  | Completed
  | BuildRaised (e : exn)
  | DownloadRaised (e : download_exn).

(** [try: body finally: final] *)
Definition try_finally {A} (body : io A) (final : io unit) : io A :=
  λ fs, match body fs with
        | (r, fs') =>
            match final fs' with
            | (Returned _, fs'') => (r, fs'')
            | (Raised e, fs'') => (Raised e, fs'')
            end
        end.

Section Script.

Variable db_as_text : database → str * read_end.
Variable remote : response.
Variable tmp_name : string.
Variable default_output : string.

(** [NamedTemporaryFile(delete=False, ...)] creates the empty file;
    [urlretrieve] then fails before it writes anything, or writes what it
    received and fails on a short body, or writes the whole body. *)
Definition download_hanja_txt
  : gmap string file → (download_exn + string) * gmap string file :=
  λ fs,
    let fs := <[tmp_name := TextFile [] EndOfFile]> fs in
    match remote with
    | NoResponse => (inl URLError, fs)
    | Truncated content ending =>
        (inl ContentTooShortError, <[tmp_name := TextFile content ending]> fs)
    | Complete content ending =>
        (inr tmp_name, <[tmp_name := TextFile content ending]> fs)
    end.

(** The [finally] block of [main]. *)
Definition cleanup (should_cleanup : bool) (input_path : string) : io unit :=
  if should_cleanup then
    ex ← os_path_exists input_path;
    if (ex : bool) then os_remove input_path else io_ret tt
  else io_ret tt.

Definition run_build (should_cleanup : bool) (input_path output_path : string)
  : gmap string file → exit * gmap string file :=
  λ fs,
    match try_finally (build_database db_as_text input_path output_path)
            (cleanup should_cleanup input_path) fs with
    | (Returned _, fs') => (Completed, fs')
    | (Raised e, fs') => (BuildRaised e, fs')
    end.

(** [argv] is [sys.argv]: [argv !! 1] is [sys.argv[1]] when there is one. *)
Definition main (argv : list string)
  : gmap string file → exit * gmap string file :=
  λ fs,
    let input_path := argv !! 1%nat in
    let output_path := default default_output (argv !! 2%nat) in
    match input_path with
    | None =>
        match download_hanja_txt fs with
        | (inl e, fs') => (DownloadRaised e, fs')
        | (inr input_path, fs') => run_build true input_path output_path fs'
        end
    | Some input_path => run_build false input_path output_path fs
    end.

End Script.

(** The line format the parser's docstring names: [hangul:hanja:meaning]. *)
Definition format_entry (e : entry) : str :=
  let '(hg, hj, mn) := e in hg ++ colon :: hj ++ colon :: mn.

(** ** The script on a disk that can refuse

    The definitions above take the output location as usable: the output path
    is not a directory, and its directory exists and can be written, so that
    [os.remove] and [sqlite3.connect] do what they are asked.  [Located] is
    the same script, statement by statement, on a disk where this can fail:
    [dirs] are the paths that are directories, [sealed] the paths at which
    nothing can be created or removed (the directory above them is missing
    or not writable).  [files] are the regular files as their readers see
    them; SQLite's rollback journal, which lies beside the database from the
    first INSERT to the commit, is not among them. *)

Record disk : Type := Disk {
  files : gmap string file;
  dirs : gset string;
  sealed : gset string
}.

Definition dio (A : Type) : Type := disk → outcome A * disk.

Definition dio_ret {A} (a : A) : dio A := λ d, (Returned a, d).

Definition dio_bind {A B} (m : dio A) (k : A → dio B) : dio B :=
  λ d, match m d with
       | (Returned a, d') => k a d'
       | (Raised e, d') => (Raised e, d')
       end.

#[global] Instance dio_mret : MRet dio := @dio_ret.
#[global] Instance dio_mbind : MBind dio := λ A B k m, dio_bind m k.

(** A computation on the regular files, run on a disk. *)
Definition on_files {A} (m : io A) : dio A :=
  λ d, match m (files d) with
       | (r, fs) => (r, Disk fs (dirs d) (sealed d))
       end.

Definition refuse {A} (e : exn) : dio A := λ d, (Raised e, d).

Definition is_directory (p : string) : dio bool :=
  λ d, (Returned (bool_decide (p ∈ dirs d)), d).

Definition is_sealed (p : string) : dio bool :=
  λ d, (Returned (bool_decide (p ∈ sealed d)), d).

Module Located.

Section Located.

Variable db_as_text : database → str * read_end.

Definition os_path_exists (p : string) : dio bool :=
  dir ← is_directory p;
  if (dir : bool) then dio_ret true else on_files (os_path_exists p).

(** On a directory [os.remove] raises ([IsADirectoryError], or
    [PermissionError] where the platform says so). *)
Definition os_remove (p : string) : dio unit :=
  dir ← is_directory p;
  if (dir : bool) then refuse IsADirectoryError
  else
    s ← is_sealed p;
    if (s : bool) then refuse PermissionError else on_files (os_remove p).

(** [sqlite3.connect] cannot open a directory, and cannot create the file
    at a sealed path. *)
Definition sqlite3_connect (p : string) : dio connection :=
  dir ← is_directory p;
  if (dir : bool) then refuse OperationalError
  else
    ex ← os_path_exists p;
    s ← is_sealed p;
    if negb ex && s then refuse OperationalError
    else on_files (sqlite3_connect p).

(** A statement that writes needs to create the journal beside the file. *)
Definition execute (stmt : connection → io connection) (c : connection)
  : dio connection :=
  s ← is_sealed (db_path c);
  if (s : bool) then refuse OperationalError else on_files (stmt c).

Definition execute_create_table : connection → dio connection :=
  execute execute_create_table.

Definition execute_create_index : connection → dio connection :=
  execute execute_create_index.

Definition execute_insert (c : connection) (e : entry) : dio connection :=
  execute (λ c, execute_insert c e) c.

Definition conn_commit : connection → dio connection :=
  execute conn_commit.

Definition conn_close (c : connection) : dio unit := on_files (conn_close c).

Definition open_text (p : string) : dio (str * read_end) :=
  dir ← is_directory p;
  if (dir : bool) then refuse IsADirectoryError
  else on_files (open_text db_as_text p).

Fixpoint insert_lines (lines : list str) (c : connection) (count : Z)
  : dio (connection * Z) :=
  match lines with
  | [] => dio_ret (c, count)
  | line :: rest =>
      match parse_hanja_line line with
      | Some e =>
          c' ← execute_insert c e;
          insert_lines rest c' (count + 1)%Z
      | None => insert_lines rest c count
      end
  end.

Definition build_database (input_path output_path : string) : dio Z :=
  ex ← os_path_exists output_path;
  (if (ex : bool) then os_remove output_path else dio_ret tt) ;;
  c ← sqlite3_connect output_path;
  c ← execute_create_table c;
  c ← execute_create_index c;
  '(c, count) ←
     ('(content, ending) ← open_text input_path;
      '(c, count) ← insert_lines (text_lines content) c 0%Z;
      match ending with
      | EndOfFile => dio_ret (c, count)
      | DecodeFailure => refuse UnicodeDecodeError
      end);
  c ← conn_commit c;
  conn_close c ;;
  dio_ret count.

End Located.

End Located.

(** The output location can be used: the path is not a directory and
    entries can be removed and created there. *)
Definition usable (d : disk) (p : string) : Prop :=
  (p ∉ dirs d) ∧ (p ∉ sealed d).


(** For the examples: a disk without directories and sealed paths. *)
Definition plain (fs : gmap string file) : disk := Disk fs ∅ ∅.

(** * Properties *)

(** ** Stripping *)

Section StripFacts.

Implicit Types (s t ws : str) (c : N).

Lemma lstrip_spaces ws t :
  forallb isspace ws = true → lstrip (ws ++ t) = lstrip t.
Proof.
  induction ws as [|c ws IH]; simpl; [done|].
  intros [Hc Hws]%andb_prop. rewrite Hc. auto.
Qed.

Lemma lstrip_nonspace c t : isspace c = false → lstrip (c :: t) = c :: t.
Proof. intros Hc. simpl. by rewrite Hc. Qed.

Lemma lstrip_decompose s :
  ∃ ws, s = ws ++ lstrip s ∧ forallb isspace ws = true.
Proof.
  induction s as [|c s [ws [Heq Hws]]]; [by exists []|].
  simpl. destruct (isspace c) eqn:Hc.
  - exists (c :: ws). simpl. rewrite Hc, Hws. split; [by f_equal|done].
  - by exists [].
Qed.

Lemma lstrip_head s c t : lstrip s = c :: t → isspace c = false.
Proof.
  induction s as [|d s IH]; simpl; [done|].
  destruct (isspace d) eqn:Hd; [done|]. by intros [= <- _].
Qed.

Lemma lstrip_all_spaces s : lstrip s = [] → forallb isspace s = true.
Proof.
  intros Hs. destruct (lstrip_decompose s) as [ws [Heq Hws]].
  rewrite Hs, app_nil_r in Heq. by subst.
Qed.

Lemma lstrip_app_nonspace s c t :
  isspace c = false → lstrip (s ++ c :: t) = lstrip s ++ c :: t.
Proof.
  intros Hc. induction s as [|d s IH]; simpl.
  - by rewrite Hc.
  - by destruct (isspace d).
Qed.

Lemma lstrip_app s t : lstrip s ≠ [] → lstrip (s ++ t) = lstrip s ++ t.
Proof.
  induction s as [|d s IH]; simpl; [done|].
  by destruct (isspace d).
Qed.

Lemma lstrip_idem s : lstrip (lstrip s) = lstrip s.
Proof.
  destruct (lstrip s) as [|c t] eqn:Hs; [done|].
  apply lstrip_nonspace. eapply lstrip_head, Hs.
Qed.

Lemma all_spaces_rev s :
  forallb isspace s = true → forallb isspace (rev s) = true.
Proof.
  rewrite !forallb_forall. intros H c Hc. apply H. by apply in_rev.
Qed.

Lemma rstrip_app_nonspace s c t :
  isspace c = false → rstrip (s ++ c :: t) = s ++ c :: rstrip t.
Proof.
  intros Hc. unfold rstrip.
  rewrite rev_app_distr. simpl. rewrite <- app_assoc. simpl.
  rewrite lstrip_app_nonspace by done.
  rewrite rev_app_distr. simpl. rewrite rev_involutive.
  by rewrite <- app_assoc.
Qed.

Lemma rstrip_cons_nonspace c t :
  isspace c = false → rstrip (c :: t) = c :: rstrip t.
Proof. apply (rstrip_app_nonspace []). Qed.

Lemma rstrip_all_spaces s : forallb isspace s = true → rstrip s = [].
Proof.
  intros Hs. unfold rstrip.
  rewrite <- (app_nil_r (rev s)), lstrip_spaces; [done|].
  by apply all_spaces_rev.
Qed.

Lemma rstrip_decompose s :
  ∃ ws, s = rstrip s ++ ws ∧ forallb isspace ws = true.
Proof.
  unfold rstrip. destruct (lstrip_decompose (rev s)) as [ws [Heq Hws]].
  exists (rev ws). split.
  - rewrite <- rev_app_distr, <- Heq. by rewrite rev_involutive.
  - by apply all_spaces_rev.
Qed.

Lemma rstrip_idem s : rstrip (rstrip s) = rstrip s.
Proof. unfold rstrip. by rewrite rev_involutive, lstrip_idem. Qed.

Lemma strip_lstrip s : strip (lstrip s) = strip s.
Proof. unfold strip. by rewrite lstrip_idem. Qed.

Lemma strip_rstrip s : strip (rstrip s) = strip s.
Proof.
  unfold strip. destruct (lstrip s) as [|c t] eqn:Hs.
  - rewrite (rstrip_all_spaces s) by by apply lstrip_all_spaces.
    done.
  - pose proof (lstrip_head _ _ _ Hs) as Hc.
    destruct (lstrip_decompose s) as [ws [Heq Hws]]. rewrite Hs in Heq.
    rewrite Heq at 1. rewrite rstrip_app_nonspace by done.
    rewrite lstrip_spaces by done. rewrite lstrip_nonspace by done.
    rewrite !rstrip_cons_nonspace by done. by rewrite rstrip_idem.
Qed.

Lemma strip_nonempty_lstrip s : strip s ≠ [] → lstrip s ≠ [].
Proof. unfold strip. intros H Hs. by rewrite Hs in H. Qed.

(** A stripped string that is not empty begins where [lstrip] begins. *)
Lemma strip_head s : head (strip s) = head (lstrip s).
Proof.
  unfold strip. destruct (lstrip s) as [|c t] eqn:Hs; [done|].
  by rewrite rstrip_cons_nonspace by (eapply lstrip_head, Hs).
Qed.

Lemma strip_no_leading_space s c : head (strip s) = Some c → isspace c = false.
Proof.
  rewrite strip_head. destruct (lstrip s) as [|d t] eqn:Hs; [done|].
  intros [= <-]. eapply lstrip_head, Hs.
Qed.

Lemma strip_no_trailing_space s c : last (strip s) = Some c → isspace c = false.
Proof.
  unfold strip, rstrip. intros [l' Hl']%last_Some.
  apply (f_equal (@rev N)) in Hl'.
  rewrite rev_involutive, rev_app_distr in Hl'. simpl in Hl'.
  eapply lstrip_head, Hl'.
Qed.

Lemma elem_of_lstrip s c : c ∈ lstrip s → c ∈ s.
Proof.
  destruct (lstrip_decompose s) as [ws [Heq _]]. intros Hc.
  rewrite Heq. apply elem_of_app. by right.
Qed.

Lemma elem_of_rstrip s c : c ∈ rstrip s → c ∈ s.
Proof.
  destruct (rstrip_decompose s) as [ws [Heq _]]. intros Hc.
  rewrite Heq. apply elem_of_app. by left.
Qed.

Lemma elem_of_strip s c : c ∈ strip s → c ∈ s.
Proof. intros Hc. by apply elem_of_lstrip, elem_of_rstrip. Qed.

Lemma is_empty_false s : s ≠ [] → is_empty s = false.
Proof. by destruct s. Qed.

End StripFacts.

(** ** Splitting *)

Section SplitFacts.

Implicit Types (s a b : str) (sep c : N).

Lemma split_nonempty sep s : split sep s ≠ [].
Proof.
  destruct s as [|c s]; simpl; [done|].
  destruct (c =? sep); [done|]. by destruct (split sep s).
Qed.

Lemma split_no_sep sep a : sep ∉ a → split sep a = [a].
Proof.
  induction a as [|c a IH]; simpl; [done|].
  intros [Hc Ha]%not_elem_of_cons.
  destruct (N.eqb_spec c sep) as [->|_]; [done|]. by rewrite IH.
Qed.

Lemma split_app_sep sep a b :
  sep ∉ a → split sep (a ++ sep :: b) = a :: split sep b.
Proof.
  induction a as [|c a IH]; simpl.
  - intros _. by rewrite N.eqb_refl.
  - intros [Hc Ha]%not_elem_of_cons.
    destruct (N.eqb_spec c sep) as [->|_]; [done|]. by rewrite IH.
Qed.

Lemma split_fields_no_sep sep s : Forall (λ f, sep ∉ f) (split sep s).
Proof.
  induction s as [|c s IH]; simpl.
  - constructor; [apply not_elem_of_nil|constructor].
  - destruct (N.eqb_spec c sep) as [->|Hc].
    + constructor; [apply not_elem_of_nil|done].
    + destruct (split sep s) as [|f fs].
      * constructor; [|constructor].
        apply not_elem_of_cons. split; [done|apply not_elem_of_nil].
      * apply Forall_cons in IH as [Hf Hfs].
        constructor; [|done]. by apply not_elem_of_cons.
Qed.

(** [s.startswith] of one code point looks at the first code point only. *)
Lemma startswith_one s c :
  startswith s [c] = match head s with Some d => d =? c | None => false end.
Proof. destruct s as [|d s]; simpl; [done|]. by rewrite andb_true_r. Qed.

Lemma colon_not_space : isspace colon = false.
Proof. reflexivity. Qed.

(** Stripping the line does not change what the first field of its tail
    strips to. *)
Lemma split_head_rstrip s :
  strip (hd [] (split colon (rstrip s))) = strip (hd [] (split colon s)).
Proof.
  destruct (decide (colon ∈ s)) as [Hin|Hnot].
  - apply list_elem_of_split_l in Hin as (a & b & -> & Ha).
    rewrite rstrip_app_nonspace by apply colon_not_space.
    by rewrite !split_app_sep.
  - rewrite (split_no_sep _ s) by done.
    rewrite split_no_sep; [apply strip_rstrip|].
    intros Hin. by apply Hnot, elem_of_rstrip.
Qed.

End SplitFacts.

(** ** The parser *)

Section Parser.

Implicit Types (A B C T line : str).

(** What the parser does with a line once it is stripped and split. *)
Lemma parse_of_fields line f0 f1 f2 rest :
  split colon (strip line) = f0 :: f1 :: f2 :: rest →
  parse_hanja_line line =
    if startswith (strip line) [hash]
       || is_empty (strip f0) || is_empty (strip f1)
    then None
    else Some (strip f0, strip f1, strip f2).
Proof.
  intros Hsplit. unfold parse_hanja_line. rewrite Hsplit.
  destruct (strip line) as [|c l] eqn:Hline; [done|]. simpl is_empty.
  rewrite orb_false_l.
  destruct (startswith (c :: l) [hash]); [done|]. simpl.
  by destruct (is_empty (strip f0)), (is_empty (strip f1)).
Qed.

Lemma strip_line A B T :
  strip A ≠ [] →
  strip (A ++ colon :: B ++ colon :: T)
  = lstrip A ++ colon :: B ++ colon :: rstrip T.
Proof.
  intros HA%strip_nonempty_lstrip. unfold strip.
  rewrite lstrip_app by done.
  replace (lstrip A ++ colon :: B ++ colon :: T)
    with ((lstrip A ++ colon :: B) ++ colon :: T)
    by (by rewrite <- app_assoc).
  rewrite rstrip_app_nonspace by apply colon_not_space.
  by rewrite <- app_assoc.
Qed.

(** A data line: two fields without a colon, then anything. *)
Lemma parse_fields A B T :
  colon ∉ A → colon ∉ B →
  strip A ≠ [] → strip B ≠ [] →
  startswith (strip A) [hash] = false →
  parse_hanja_line (A ++ colon :: B ++ colon :: T)
  = Some (strip A, strip B, strip (hd [] (split colon T))).
Proof.
  intros HcA HcB HA HB Hhash.
  assert (colon ∉ lstrip A) as HcA'
    by (intros Hin; by apply HcA, elem_of_lstrip).
  pose proof (split_nonempty colon (rstrip T)) as Hne.
  destruct (split colon (rstrip T)) as [|f2 rest] eqn:Htail; [done|].
  rewrite (parse_of_fields _ (lstrip A) B f2 rest).
  - rewrite strip_lstrip, strip_line by done.
    rewrite startswith_one in *. rewrite strip_head in Hhash.
    apply strip_nonempty_lstrip in HA as HA'.
    destruct (lstrip A) as [|c l] eqn:HlA; [done|]. simpl in *.
    rewrite Hhash, !is_empty_false by done. simpl.
    do 2 f_equal. rewrite <- split_head_rstrip. by rewrite Htail.
  - rewrite strip_line by done.
    by rewrite !split_app_sep, Htail.
Qed.

Lemma parse_three A B C :
  colon ∉ A → colon ∉ B → colon ∉ C →
  strip A ≠ [] → strip B ≠ [] →
  startswith (strip A) [hash] = false →
  parse_hanja_line (A ++ colon :: B ++ colon :: C)
  = Some (strip A, strip B, strip C).
Proof.
  intros HcA HcB HcC HA HB Hhash.
  rewrite parse_fields by done. by rewrite split_no_sep.
Qed.

End Parser.

(** ** The builder *)

Section BuilderFacts.

Implicit Types (fs : gmap string file) (d : database) (es : list entry).

Lemma insert_all_nil d : insert_all d [] = d.
Proof.
  destruct d. unfold insert_all. simpl.
  by rewrite app_nil_r, Z.add_0_r.
Qed.

Lemma insert_all_cons d e es :
  insert_all (insert_all d [e]) es = insert_all d (e :: es).
Proof.
  unfold insert_all. simpl. rewrite <- app_assoc. simpl.
  change (Z.of_nat 1) with 1%Z. f_equal. lia.
Qed.

Lemma execute_insert_result p t d e fs :
  (match t with Some d' => d' = d | None => fs !! p = Some (DbFile d) end) →
  has_table d = true →
  execute_insert (Connection p t) e fs
  = (Returned (Connection p (Some (insert_all d [e]))), fs).
Proof.
  intros Hview Htable. destruct e as [[hg hj] mn].
  unfold execute_insert, conn_view, mbind, io_mbind, io_bind, insert_all.
  simpl. destruct t as [d'|]; simpl.
  - subst d'. rewrite Htable. reflexivity.
  - unfold read_file. rewrite Hview. simpl. rewrite Htable. reflexivity.
Qed.

Lemma insert_lines_txn lines p d n fs :
  has_table d = true →
  insert_lines lines (Connection p (Some d)) n fs
  = (Returned (Connection p (Some (insert_all d (omap parse_hanja_line lines))),
               (n + Z.of_nat (length (omap parse_hanja_line lines)))%Z), fs).
Proof.
  revert d n. induction lines as [|line lines IH]; intros d n Htable; simpl.
  - by rewrite insert_all_nil, Z.add_0_r.
  - destruct (parse_hanja_line line) as [e|]; [|by apply IH].
    unfold mbind, io_mbind, io_bind.
    rewrite (execute_insert_result p (Some d) d) by done.
    rewrite IH by done. rewrite insert_all_cons.
    do 3 f_equal. simpl length. unfold omap. lia.
Qed.

Lemma insert_lines_fresh lines p d n fs :
  fs !! p = Some (DbFile d) → has_table d = true →
  insert_lines lines (Connection p None) n fs
  = (Returned (match omap parse_hanja_line lines with
               | [] => Connection p None
               | es => Connection p (Some (insert_all d es))
               end,
               (n + Z.of_nat (length (omap parse_hanja_line lines)))%Z), fs).
Proof.
  intros Hfile Htable. revert n.
  induction lines as [|line lines IH]; intros n; simpl.
  - by rewrite Z.add_0_r.
  - destruct (parse_hanja_line line) as [e|]; [|by apply IH].
    unfold mbind, io_mbind, io_bind.
    rewrite (execute_insert_result p None d) by done.
    rewrite insert_lines_txn by done. rewrite insert_all_cons.
    do 3 f_equal. simpl length. unfold omap. lia.
Qed.

End BuilderFacts.

Section Steps.

Context {A B : Type}.
Implicit Types (m : io A) (k : A → io B) (fs : gmap string file).

Lemma bind_returned m k fs a fs' :
  m fs = (Returned a, fs') → (m ≫= k) fs = k a fs'.
Proof. intros H. unfold mbind, io_mbind, io_bind. by rewrite H. Qed.

Lemma bind_raised m k fs e fs' :
  m fs = (Raised e, fs') → (m ≫= k) fs = (Raised e, fs').
Proof. intros H. unfold mbind, io_mbind, io_bind. by rewrite H. Qed.

End Steps.

Section Statements.

Implicit Types (fs : gmap string file) (d : database) (p : string).

Lemma os_path_exists_run p fs :
  os_path_exists p fs
  = (Returned (match fs !! p with Some _ => true | None => false end), fs).
Proof. reflexivity. Qed.

Lemma remove_if_exists_run p fs :
  (if match fs !! p with Some _ => true | None => false end
   then os_remove p else io_ret tt) fs
  = (Returned (), delete p fs).
Proof.
  unfold os_remove. destruct (fs !! p) eqn:Hp.
  - by rewrite Hp.
  - unfold io_ret. by rewrite delete_id.
Qed.

Lemma sqlite3_connect_new p fs :
  fs !! p = None →
  sqlite3_connect p fs
  = (Returned (Connection p None), <[p := DbFile empty_database]> fs).
Proof.
  intros Hp. unfold sqlite3_connect.
  erewrite bind_returned by reflexivity. by rewrite Hp.
Qed.

Lemma conn_view_file p d fs :
  fs !! p = Some (DbFile d) →
  conn_view (Connection p None) fs = (Returned d, fs).
Proof.
  intros Hp. unfold conn_view. simpl.
  erewrite bind_returned by reflexivity. by rewrite Hp.
Qed.

Lemma execute_create_table_run p d fs :
  fs !! p = Some (DbFile d) → has_table d = false →
  execute_create_table (Connection p None) fs
  = (Returned (Connection p None),
     <[p := DbFile (Database true (has_index d) (rows d) (sequence d))]> fs).
Proof.
  intros Hp Ht. unfold execute_create_table.
  erewrite bind_returned by by apply conn_view_file.
  by rewrite Ht.
Qed.

Lemma execute_create_index_run p d fs :
  fs !! p = Some (DbFile d) → has_table d = true → has_index d = false →
  execute_create_index (Connection p None) fs
  = (Returned (Connection p None),
     <[p := DbFile (Database (has_table d) true (rows d) (sequence d))]> fs).
Proof.
  intros Hp Ht Hi. unfold execute_create_index.
  erewrite bind_returned by by apply conn_view_file.
  by rewrite Ht, Hi.
Qed.

End Statements.

Section BuilderRun.

Variable db_as_text : database → str * read_end.

Implicit Types (fs : gmap string file) (d : database) (es : list entry).

Lemma open_text_fs p fs : (open_text db_as_text p fs).2 = fs.
Proof.
  unfold open_text, mbind, io_mbind, io_bind, read_file. simpl.
  by destruct (fs !! p) as [[| |]|].
Qed.

(** One run of the builder.  Before the input is opened, whatever was at the
    output path has been replaced by a database holding the schema and the
    index; what follows depends on the input alone. *)
Lemma build_database_run inp out fs :
  build_database db_as_text inp out fs =
    match open_text db_as_text inp (<[out := DbFile schema_only]> fs) with
    | (Returned (content, EndOfFile), _) =>
        (Returned (Z.of_nat (length (parse_all content))),
         <[out := DbFile (insert_all schema_only (parse_all content))]> fs)
    | (Returned (_, DecodeFailure), _) =>
        (Raised UnicodeDecodeError, <[out := DbFile schema_only]> fs)
    | (Raised e, _) => (Raised e, <[out := DbFile schema_only]> fs)
    end.
Proof.
  unfold build_database.
  erewrite bind_returned by apply os_path_exists_run.
  erewrite bind_returned by apply remove_if_exists_run.
  erewrite bind_returned
    by (apply sqlite3_connect_new, lookup_delete_eq).
  rewrite insert_delete_eq.
  erewrite bind_returned
    by (by eapply execute_create_table_run; [apply lookup_insert_eq|]).
  rewrite insert_insert_eq.
  erewrite bind_returned
    by (by eapply execute_create_index_run; [apply lookup_insert_eq| |]).
  rewrite insert_insert_eq. simpl.
  fold schema_only. set (fs0 := <[out := DbFile schema_only]> fs).
  pose proof (open_text_fs inp fs0) as Hfs.
  destruct (open_text db_as_text inp fs0) as [[[content ending]|e] fs1] eqn:Hopen;
    simpl in Hfs; subst fs1.
  - assert (insert_lines (text_lines content)
              (Connection out None) 0 fs0
            = (Returned (match parse_all content with
                         | [] => Connection out None
                         | es => Connection out (Some (insert_all schema_only es))
                         end,
                         Z.of_nat (length (parse_all content))), fs0)) as Hloop.
    { rewrite (insert_lines_fresh _ _ schema_only)
        by (done || apply lookup_insert_eq).
      by rewrite Z.add_0_l. }
    destruct ending.
    + erewrite bind_returned; cycle 1.
      { erewrite bind_returned by exact Hopen. simpl.
        erewrite bind_returned by exact Hloop. reflexivity. }
      simpl. destruct (parse_all content) as [|e es] eqn:Hes.
      * by rewrite insert_all_nil.
      * unfold conn_commit, write_file, mbind, io_mbind, io_bind. simpl.
        subst fs0. by rewrite insert_insert_eq.
    + erewrite bind_raised; [reflexivity|].
      erewrite bind_returned by exact Hopen. simpl.
      erewrite bind_returned by exact Hloop. reflexivity.
  - erewrite bind_raised; [reflexivity|].
    by erewrite bind_raised by exact Hopen.
Qed.

End BuilderRun.

(** ** The parser: accepted and rejected lines *)

Section ParserClaims.

Implicit Types (A B C line : str).

Lemma split_head_hash s f0 rest :
  split colon s = f0 :: rest → startswith s [hash] = startswith f0 [hash].
Proof.
  destruct s as [|c s]; simpl; [by intros [= <- _]|].
  destruct (N.eqb_spec c colon) as [->|Hc].
  - by intros [= <- _].
  - destruct (split colon s); by intros [= <- _].
Qed.

Lemma parse_some_inv line e :
  parse_hanja_line line = Some e →
  ∃ f0 f1 f2 rest,
    split colon (strip line) = f0 :: f1 :: f2 :: rest
    ∧ e = (strip f0, strip f1, strip f2)
    ∧ strip f0 ≠ [] ∧ strip f1 ≠ [].
Proof.
  unfold parse_hanja_line.
  destruct (is_empty (strip line) || startswith (strip line) [hash]); [done|].
  destruct (split colon (strip line)) as [|f0 [|f1 [|f2 rest]]]; try done.
  simpl. destruct (strip f0) as [|c0 t0] eqn:H0; [done|].
  destruct (strip f1) as [|c1 t1] eqn:H1; [done|]. simpl.
  intros [= <-]. exists f0, f1, f2, rest. by rewrite H0, H1.
Qed.

Lemma strip_clean s : colon ∉ s → clean (strip s).
Proof.
  intros Hs. repeat split.
  - intros Hin. by apply Hs, elem_of_strip.
  - apply strip_no_leading_space.
  - apply strip_no_trailing_space.
Qed.

Lemma parse_well_formed line e :
  parse_hanja_line line = Some e → well_formed e.
Proof.
  intros (f0 & f1 & f2 & rest & Hsplit & -> & H0 & H1)%parse_some_inv.
  pose proof (split_fields_no_sep colon (strip line)) as Hall.
  rewrite Hsplit in Hall.
  apply Forall_cons in Hall as [Hc0 Hall].
  apply Forall_cons in Hall as [Hc1 Hall].
  apply Forall_cons in Hall as [Hc2 _].
  unfold well_formed. auto using strip_clean.
Qed.

Lemma spaces_no_colon C : forallb isspace C = true → colon ∉ C.
Proof.
  rewrite forallb_forall. intros Hall Hin%list_elem_of_In.
  by apply Hall in Hin.
Qed.

Lemma strip_spaces C : forallb isspace C = true → strip C = [].
Proof.
  intros Hall. unfold strip.
  by rewrite <- (app_nil_r C), lstrip_spaces.
Qed.

(** A colon in the gloss ends the meaning: the text after it is lost. *)
Lemma meaning_truncated_at_colon A B M1 M2 :
  colon ∉ A → colon ∉ B → colon ∉ M1 →
  strip A ≠ [] → strip B ≠ [] →
  startswith (strip A) [hash] = false →
  parse_hanja_line (A ++ colon :: B ++ colon :: M1 ++ colon :: M2)
  = Some (strip A, strip B, strip M1).
Proof.
  intros HcA HcB HcM HA HB Hhash.
  rewrite parse_fields by done. by rewrite split_app_sep.
Qed.

Example meaning_with_colon :
  parse_hanja_line (lit "a:b:one:two") = Some (lit "a", lit "b", lit "one").
Proof. reflexivity. Qed.

(** C1, as amended.  A line [A:B:C] whose three fields hold no colon, with
    [A] and [B] not empty after stripping and with stripped [A] not beginning
    with the comment marker, parses to the three stripped fields. *)
Theorem parse_valid_line A B C :
  colon ∉ A → colon ∉ B → colon ∉ C →
  strip A ≠ [] → strip B ≠ [] →
  startswith (strip A) [hash] = false →
  parse_hanja_line (A ++ colon :: B ++ colon :: C)
  = Some (strip A, strip B, strip C).
Proof. apply parse_three. Qed.

(** C1 as stated fails: in the line "#a:b:c" no field holds a colon and the
    first two are not empty after stripping, but the line is a comment and
    is skipped. *)
Lemma parse_comment_shaped_line_rejected :
  (colon ∉ lit "#a") ∧ (colon ∉ lit "b") ∧ (colon ∉ lit "c")
  ∧ strip (lit "#a") ≠ [] ∧ strip (lit "b") ≠ []
  ∧ parse_hanja_line (lit "#a" ++ colon :: lit "b" ++ colon :: lit "c") = None
  ∧ parse_hanja_line (lit "#a" ++ colon :: lit "b" ++ colon :: lit "c")
    ≠ Some (strip (lit "#a"), strip (lit "b"), strip (lit "c")).
Proof. repeat split; compute_done. Qed.

(** C2.  The six lines of P2 are all rejected. *)
Theorem parse_rejects_listed_lines :
  parse_hanja_line (lit "") = None
  ∧ parse_hanja_line (lit "   ") = None
  ∧ parse_hanja_line (lit "# comment") = None
  ∧ parse_hanja_line (lit "onlytwo:fields") = None
  ∧ parse_hanja_line (lit ":hanja:meaning") = None
  ∧ parse_hanja_line (lit "hangul::meaning") = None.
Proof. repeat split; reflexivity. Qed.

(** C8.  When the stripped line splits into four fields or more, the result
    is decided by the first three alone: the line is skipped as a comment or
    for an empty hangul or hanja exactly as a three-field line is, and
    otherwise the entry returned has the stripped field 2 as its meaning.
    The fields from index 3 on do not occur in the result. *)
Theorem parse_ignores_extra_fields line f0 f1 f2 f3 rest :
  split colon (strip line) = f0 :: f1 :: f2 :: f3 :: rest →
  parse_hanja_line line
  = (if startswith f0 [hash] || is_empty (strip f0) || is_empty (strip f1)
     then None
     else Some (strip f0, strip f1, strip f2))
  ∧ ∀ hg hj mn, parse_hanja_line line = Some (hg, hj, mn) → mn = strip f2.
Proof.
  intros Hsplit. rewrite (parse_of_fields _ _ _ _ _ Hsplit).
  rewrite (split_head_hash _ _ _ Hsplit). split; [done|].
  intros hg hj mn.
  destruct (startswith f0 [hash] || is_empty (strip f0) || is_empty (strip f1));
    [done|by intros [= _ _ <-]].
Qed.

(** C10, as amended.  A three-field line whose third field is empty or
    white space only, with [A] and [B] not empty after stripping and with
    stripped [A] not beginning with the comment marker, is accepted with the
    empty meaning. *)
Theorem parse_empty_meaning A B C :
  colon ∉ A → colon ∉ B → forallb isspace C = true →
  strip A ≠ [] → strip B ≠ [] →
  startswith (strip A) [hash] = false →
  parse_hanja_line (A ++ colon :: B ++ colon :: C)
  = Some (strip A, strip B, []).
Proof.
  intros HcA HcB HC HA HB Hhash.
  rewrite parse_three by (done || by apply spaces_no_colon).
  by rewrite (strip_spaces C).
Qed.

(** C10 as stated fails: "#a:b:" has three fields, an empty third one and
    non-empty first two, and is skipped as a comment. *)
Lemma parse_comment_shaped_empty_meaning_rejected :
  (colon ∉ lit "#a") ∧ (colon ∉ lit "b") ∧ forallb isspace (lit "") = true
  ∧ strip (lit "#a") ≠ [] ∧ strip (lit "b") ≠ []
  ∧ parse_hanja_line (lit "#a" ++ colon :: lit "b" ++ colon :: lit "") = None.
Proof. repeat split; compute_done. Qed.

End ParserClaims.

(** ** The builder: what a build leaves at the output path *)

Section BuilderClaims.

Variable db_as_text : database → str * read_end.

Implicit Types (fs : gmap string file) (d : database) (es : list entry)
  (inp out : string).

Lemma open_text_other inp out f fs :
  inp ≠ out →
  open_text db_as_text inp (<[out := f]> fs)
  = ((open_text db_as_text inp fs).1, <[out := f]> fs).
Proof.
  intros Hne.
  unfold open_text, mbind, io_mbind, io_bind, read_file. simpl.
  rewrite lookup_insert_ne by done.
  by destruct (fs !! inp) as [[| |]|].
Qed.

Lemma open_text_readable inp fs content ending :
  fs !! inp = Some (TextFile content ending) →
  open_text db_as_text inp fs = (Returned (content, ending), fs).
Proof.
  intros Hin. unfold open_text, mbind, io_mbind, io_bind, read_file.
  simpl. by rewrite Hin.
Qed.

(** A build from a readable text, to another path. *)
Lemma build_database_readable inp out fs content :
  inp ≠ out →
  fs !! inp = Some (TextFile content EndOfFile) →
  build_database db_as_text inp out fs
  = (Returned (Z.of_nat (length (parse_all content))),
     <[out := DbFile (insert_all schema_only (parse_all content))]> fs).
Proof.
  intros Hne Hin. rewrite build_database_run.
  rewrite open_text_other by done.
  by rewrite (open_text_readable _ _ _ _ Hin).
Qed.

(** Whatever happens, the output path ends up holding the fresh database
    with some of the parser's entries inserted (none when the build failed). *)
Lemma build_database_output inp out fs :
  ∃ es,
    Forall (λ e, ∃ line, parse_hanja_line line = Some e) es
    ∧ (build_database db_as_text inp out fs).2 !! out
      = Some (DbFile (insert_all schema_only es)).
Proof.
  rewrite build_database_run.
  destruct (open_text db_as_text inp _) as [[[content []]|e] fs1].
  - exists (parse_all content). simpl. rewrite lookup_insert_eq.
    split; [|done]. apply Forall_forall. intros e He.
    apply list_elem_of_omap in He as (line & _ & Hline). eauto.
  - exists []. simpl. by rewrite lookup_insert_eq.
  - exists []. simpl. by rewrite lookup_insert_eq.
Qed.

Lemma records_from_length i es : length (records_from i es) = length es.
Proof. revert i. induction es as [|e es IH]; intros i; simpl; auto. Qed.

Lemma records_from_columns i es :
  map columns (records_from i es) = map (λ e, (e, 0%Z)) es.
Proof.
  revert i. induction es as [|[[hg hj] mn] es IH]; intros i; simpl; [done|].
  by rewrite IH.
Qed.

Lemma records_from_Forall (P : entry → Prop) i es :
  Forall P es →
  Forall (λ r, P (hangul r, hanja r, meaning r) ∧ frequency r = 0%Z)
    (records_from i es).
Proof.
  intros Hes. revert i.
  induction Hes as [|[[hg hj] mn] es He Hes IH]; intros i; simpl;
    constructor; auto.
Qed.

(** C4.  Building over an existing database: the build returns the number
    [M] of accepted entries, and the database at the output path holds
    exactly the [M] records of this input, numbered from 1; nothing of the
    old database enters the result. *)
Theorem build_replaces_artifact inp out fs old content :
  fs !! out = Some (DbFile old) →
  fs !! inp = Some (TextFile content EndOfFile) →
  ∃ d,
    build_database db_as_text inp out fs
    = (Returned (Z.of_nat (length (parse_all content))),
       <[out := DbFile d]> fs)
    ∧ rows d = records_from 0 (parse_all content)
    ∧ length (rows d) = length (parse_all content).
Proof.
  intros Hout Hin.
  assert (inp ≠ out) as Hne by (intros ->; congruence).
  exists (insert_all schema_only (parse_all content)).
  split; [by apply build_database_readable|].
  simpl. by rewrite records_from_length.
Qed.

(** C5.  The end-to-end scenario: three records, in input order, and the
    lookups by hangul find 2, 1 and 0 of them. *)
Theorem build_end_to_end inp out fs :
  inp ≠ out →
  fs !! inp = Some (TextFile e2e_text EndOfFile) →
  ∃ d,
    build_database db_as_text inp out fs
    = (Returned 3%Z, <[out := DbFile d]> fs)
    ∧ map columns (rows d)
      = [ ([ga], lit "family", lit "false reading example", 0%Z);
          ([ga], [0x6687], lit "leisure", 0%Z);
          ([na], [0x90A3], lit "that", 0%Z) ]
    ∧ length (lookup_hangul d [ga]) = 2%nat
    ∧ length (lookup_hangul d [na]) = 1%nat
    ∧ length (lookup_hangul d [da]) = 0%nat.
Proof.
  intros Hne Hin.
  exists (insert_all schema_only (parse_all e2e_text)).
  split; [by rewrite (build_database_readable _ _ _ _ Hne Hin)|].
  repeat split; compute_done.
Qed.

(** C6.  Two builds from the same text, whatever the file systems they
    start from, return the same count and leave the same database; so does a
    second build right after the first.  The records are those of the
    accepted entries, in input order, with frequency 0. *)
Theorem rebuild_idempotent inp out fs fs' content :
  inp ≠ out →
  fs !! inp = Some (TextFile content EndOfFile) →
  fs' !! inp = Some (TextFile content EndOfFile) →
  ∃ n d,
    build_database db_as_text inp out fs
    = (Returned n, <[out := DbFile d]> fs)
    ∧ build_database db_as_text inp out fs'
      = (Returned n, <[out := DbFile d]> fs')
    ∧ build_database db_as_text inp out (<[out := DbFile d]> fs)
      = (Returned n, <[out := DbFile d]> fs)
    ∧ n = Z.of_nat (length (rows d))
    ∧ map columns (rows d) = map (λ e, (e, 0%Z)) (parse_all content).
Proof.
  intros Hne Hin Hin'.
  exists (Z.of_nat (length (parse_all content))),
    (insert_all schema_only (parse_all content)).
  repeat split.
  - by apply build_database_readable.
  - by apply build_database_readable.
  - rewrite (build_database_readable _ _ _ content) by
      (done || by rewrite lookup_insert_ne).
    by rewrite insert_insert_eq.
  - simpl. by rewrite records_from_length.
  - simpl. apply records_from_columns.
Qed.

(** C7.  After a build, however it ended, every record of the database at
    the output path has frequency 0. *)
Theorem persisted_frequency_zero inp out fs r fs' d :
  build_database db_as_text inp out fs = (r, fs') →
  fs' !! out = Some (DbFile d) →
  Forall (λ rec, frequency rec = 0%Z) (rows d).
Proof.
  intros Hrun Hout.
  destruct (build_database_output inp out fs) as (es & Hes & Hdb).
  rewrite Hrun in Hdb. simpl in Hdb. rewrite Hout in Hdb.
  injection Hdb as ->. simpl.
  eapply Forall_impl; [apply (records_from_Forall (λ _, True))|].
  - by apply Forall_true.
  - by intros rec [_ ?].
Qed.

End BuilderClaims.

(** C9.  An entry the parser returns has three fields without a colon and
    without white space at either end, and its hangul and hanja are not
    empty; the records at the output path after a build have the same
    property. *)
Theorem persisted_fields_clean :
  (∀ line e, parse_hanja_line line = Some e → well_formed e)
  ∧ (∀ db_as_text inp out fs r fs' d,
       build_database db_as_text inp out fs = (r, fs') →
       fs' !! out = Some (DbFile d) →
       Forall (λ rec, well_formed (hangul rec, hanja rec, meaning rec))
         (rows d)).
Proof.
  split; [apply parse_well_formed|].
  intros db_as_text inp out fs r fs' d Hrun Hout.
  destruct (build_database_output db_as_text inp out fs) as (es & Hes & Hdb).
  rewrite Hrun in Hdb. simpl in Hdb. rewrite Hout in Hdb.
  injection Hdb as ->. simpl.
  eapply Forall_impl; [apply (records_from_Forall well_formed)|].
  - eapply Forall_impl; [exact Hes|].
    intros e [line Hline]. by eapply parse_well_formed.
  - by intros rec [? _].
Qed.

(** ** The claims at concrete inputs *)

Lemma parse_valid_line_witness :
  (colon ∉ lit " ab ") ∧ (colon ∉ lit "cd ") ∧ (colon ∉ lit " some gloss ")
  ∧ strip (lit " ab ") ≠ [] ∧ strip (lit "cd ") ≠ []
  ∧ startswith (strip (lit " ab ")) [hash] = false
  ∧ parse_hanja_line (lit " ab " ++ colon :: lit "cd " ++ colon :: lit " some gloss ")
    = Some (strip (lit " ab "), strip (lit "cd "), strip (lit " some gloss ")).
Proof.
  do 6 (split; [compute_done|]).
  apply parse_valid_line; compute_done.
Defined.

Lemma parse_ignores_extra_fields_witness :
  split colon (strip (lit " a:b: one :two:three "))
  = [lit "a"; lit "b"; lit " one "; lit "two"; lit "three"]
  ∧ parse_hanja_line (lit " a:b: one :two:three ")
    = Some (lit "a", lit "b", lit "one")
  ∧ ∀ hg hj mn,
      parse_hanja_line (lit " a:b: one :two:three ") = Some (hg, hj, mn) →
      mn = strip (lit " one ").
Proof.
  split; [reflexivity|].
  exact (parse_ignores_extra_fields (lit " a:b: one :two:three ")
           (lit "a") (lit "b") (lit " one ") (lit "two") [lit "three"]
           eq_refl).
Defined.

Lemma parse_empty_meaning_witness :
  (colon ∉ lit "a") ∧ (colon ∉ lit "b") ∧ forallb isspace (lit "   ") = true
  ∧ strip (lit "a") ≠ [] ∧ strip (lit "b") ≠ []
  ∧ startswith (strip (lit "a")) [hash] = false
  ∧ parse_hanja_line (lit "a" ++ colon :: lit "b" ++ colon :: lit "   ")
    = Some (strip (lit "a"), strip (lit "b"), []).
Proof.
  do 6 (split; [compute_done|]).
  apply parse_empty_meaning; compute_done.
Defined.

Lemma build_replaces_artifact_witness :
  e2e_fs !! "hanja.db" = Some (DbFile old_db)
  ∧ e2e_fs !! "hanja.txt" = Some (TextFile e2e_text EndOfFile)
  ∧ ∃ d,
      build_database binary_garbage "hanja.txt" "hanja.db" e2e_fs
      = (Returned (Z.of_nat (length (parse_all e2e_text))),
         <["hanja.db" := DbFile d]> e2e_fs)
      ∧ rows d = records_from 0 (parse_all e2e_text)
      ∧ length (rows d) = length (parse_all e2e_text).
Proof.
  split; [reflexivity|]. split; [reflexivity|].
  exact (build_replaces_artifact binary_garbage "hanja.txt" "hanja.db"
           e2e_fs old_db e2e_text eq_refl eq_refl).
Defined.

Lemma build_end_to_end_witness :
  "hanja.txt" ≠ "hanja.db"
  ∧ e2e_fs !! "hanja.txt" = Some (TextFile e2e_text EndOfFile)
  ∧ ∃ d,
      build_database binary_garbage "hanja.txt" "hanja.db" e2e_fs
      = (Returned 3%Z, <["hanja.db" := DbFile d]> e2e_fs)
      ∧ map columns (rows d)
        = [ ([ga], lit "family", lit "false reading example", 0%Z);
            ([ga], [0x6687], lit "leisure", 0%Z);
            ([na], [0x90A3], lit "that", 0%Z) ]
      ∧ length (lookup_hangul d [ga]) = 2%nat
      ∧ length (lookup_hangul d [na]) = 1%nat
      ∧ length (lookup_hangul d [da]) = 0%nat.
Proof.
  assert ("hanja.txt" ≠ "hanja.db") as Hne by done.
  split; [exact Hne|]. split; [reflexivity|].
  exact (build_end_to_end binary_garbage "hanja.txt" "hanja.db" e2e_fs
           Hne eq_refl).
Defined.

Lemma rebuild_idempotent_witness :
  "hanja.txt" ≠ "hanja.db"
  ∧ e2e_fs !! "hanja.txt" = Some (TextFile e2e_text EndOfFile)
  ∧ delete "hanja.db" e2e_fs !! "hanja.txt"
    = Some (TextFile e2e_text EndOfFile)
  ∧ ∃ n d,
      build_database binary_garbage "hanja.txt" "hanja.db" e2e_fs
      = (Returned n, <["hanja.db" := DbFile d]> e2e_fs)
      ∧ build_database binary_garbage "hanja.txt" "hanja.db"
          (delete "hanja.db" e2e_fs)
        = (Returned n, <["hanja.db" := DbFile d]> (delete "hanja.db" e2e_fs))
      ∧ build_database binary_garbage "hanja.txt" "hanja.db"
          (<["hanja.db" := DbFile d]> e2e_fs)
        = (Returned n, <["hanja.db" := DbFile d]> e2e_fs)
      ∧ n = Z.of_nat (length (rows d))
      ∧ map columns (rows d) = map (λ e, (e, 0%Z)) (parse_all e2e_text).
Proof.
  assert ("hanja.txt" ≠ "hanja.db") as Hne by done.
  split; [exact Hne|]. split; [reflexivity|]. split; [reflexivity|].
  exact (rebuild_idempotent binary_garbage "hanja.txt" "hanja.db" e2e_fs
           (delete "hanja.db" e2e_fs) e2e_text Hne eq_refl eq_refl).
Defined.

Lemma persisted_frequency_zero_witness :
  build_database binary_garbage "hanja.txt" "hanja.db" e2e_fs
  = (Returned 3%Z, <["hanja.db" := DbFile e2e_db]> e2e_fs)
  ∧ (<["hanja.db" := DbFile e2e_db]> e2e_fs) !! "hanja.db"
    = Some (DbFile e2e_db)
  ∧ Forall (λ rec, frequency rec = 0%Z) (rows e2e_db).
Proof.
  assert (build_database binary_garbage "hanja.txt" "hanja.db" e2e_fs
          = (Returned 3%Z, <["hanja.db" := DbFile e2e_db]> e2e_fs)) as Hrun
    by (by vm_compute).
  split; [exact Hrun|]. split; [reflexivity|].
  exact (persisted_frequency_zero binary_garbage "hanja.txt" "hanja.db"
           e2e_fs _ _ e2e_db Hrun eq_refl).
Defined.

Lemma persisted_fields_clean_witness :
  parse_hanja_line (lit " a:b: one :two:three ")
  = Some (lit "a", lit "b", lit "one")
  ∧ well_formed (lit "a", lit "b", lit "one")
  ∧ build_database binary_garbage "hanja.txt" "hanja.db" e2e_fs
    = (Returned 3%Z, <["hanja.db" := DbFile e2e_db]> e2e_fs)
  ∧ Forall (λ rec, well_formed (hangul rec, hanja rec, meaning rec))
      (rows e2e_db).
Proof.
  assert (build_database binary_garbage "hanja.txt" "hanja.db" e2e_fs
          = (Returned 3%Z, <["hanja.db" := DbFile e2e_db]> e2e_fs)) as Hrun
    by (by vm_compute).
  split; [reflexivity|]. split.
  - exact (proj1 persisted_fields_clean (lit " a:b: one :two:three ")
             (lit "a", lit "b", lit "one") eq_refl).
  - split; [exact Hrun|].
    exact (proj2 persisted_fields_clean binary_garbage "hanja.txt" "hanja.db"
             e2e_fs _ _ e2e_db Hrun eq_refl).
Defined.

(** * Further properties of the script *)

(** ** The parser on white space, comments and short lines *)

Section ParserEdges.

Implicit Types (s w line rest : str) (c : N).

Lemma rstrip_app_spaces s w :
  forallb isspace w = true → rstrip (s ++ w) = rstrip s.
Proof.
  intros Hw. unfold rstrip. rewrite rev_app_distr.
  by rewrite lstrip_spaces by by apply all_spaces_rev.
Qed.

Lemma strip_spaces_around w1 s w2 :
  forallb isspace w1 = true → forallb isspace w2 = true →
  strip (w1 ++ s ++ w2) = strip s.
Proof.
  intros H1 H2. unfold strip. rewrite lstrip_spaces by done.
  destruct (lstrip s) as [|c t] eqn:Hs.
  - apply lstrip_all_spaces in Hs.
    by rewrite lstrip_spaces, <- (app_nil_r w2), lstrip_spaces.
  - rewrite lstrip_app by by rewrite Hs.
    rewrite Hs. by apply rstrip_app_spaces.
Qed.

(** X1.  White space around a line, the line terminator included, does not
    change what the line parses to. *)
Theorem parse_surrounding_space w1 line w2 :
  forallb isspace w1 = true → forallb isspace w2 = true →
  parse_hanja_line (w1 ++ line ++ w2) = parse_hanja_line line.
Proof.
  intros H1 H2. unfold parse_hanja_line.
  by rewrite strip_spaces_around.
Qed.

(** X2.  A line of white space only, and a line whose first character after
    leading white space is the comment marker, are skipped. *)
Theorem parse_skips_blank_and_comment line :
  forallb isspace line = true
  ∨ (∃ w rest, forallb isspace w = true ∧ line = w ++ hash :: rest) →
  parse_hanja_line line = None.
Proof.
  intros [Hblank|(w & rest & Hw & ->)]; unfold parse_hanja_line.
  - by rewrite strip_spaces.
  - assert (head (strip (w ++ hash :: rest)) = Some hash) as Hhead.
    { rewrite strip_head, lstrip_spaces by done.
      by rewrite lstrip_nonspace. }
    rewrite startswith_one, Hhead.
    by destruct (is_empty _).
Qed.

Lemma split_length sep s :
  length (split sep s) = S (count_occ N.eq_dec s sep).
Proof.
  induction s as [|c s IH]; [done|].
  cbn [split count_occ].
  destruct (N.eqb_spec c sep) as [Heq|Hc].
  - destruct (N.eq_dec c sep) as [_|]; [|done]. simpl. by rewrite IH.
  - destruct (N.eq_dec c sep) as [|_]; [done|].
    destruct (split sep s); simpl in *; lia.
Qed.

Lemma count_occ_strip s c :
  (count_occ N.eq_dec (strip s) c ≤ count_occ N.eq_dec s c)%nat.
Proof.
  destruct (lstrip_decompose s) as [w1 [H1 _]].
  destruct (rstrip_decompose (lstrip s)) as [w2 [H2 _]].
  pose proof (f_equal (λ l, count_occ N.eq_dec l c) H1) as E1.
  pose proof (f_equal (λ l, count_occ N.eq_dec l c) H2) as E2.
  simpl in E1, E2. rewrite count_occ_app in E1, E2.
  unfold strip. lia.
Qed.

(** X3.  A line with fewer than two colons is skipped. *)
Theorem parse_needs_two_colons line :
  (count_occ N.eq_dec line colon < 2)%nat →
  parse_hanja_line line = None.
Proof.
  intros Hcount. unfold parse_hanja_line.
  destruct (is_empty (strip line) || startswith (strip line) [hash]); [done|].
  pose proof (split_length colon (strip line)) as Hlen.
  pose proof (count_occ_strip line colon) as Hle.
  destruct (Nat.ltb_spec (length (split colon (strip line))) 3); [done|lia].
Qed.

Lemma split_first_field s f0 (others : list str) :
  split colon s = f0 :: others → f0 = [] ∨ head f0 = head s.
Proof.
  destruct s as [|c s]; simpl; [intros [= <- _]; by left|].
  destruct (N.eqb_spec c colon) as [->|Hc].
  - intros [= <- _]. by left.
  - destruct (split colon s); intros [= <- _]; by right.
Qed.

Lemma parse_some_not_comment line hg hj mn :
  parse_hanja_line line = Some (hg, hj, mn) → startswith hg [hash] = false.
Proof.
  unfold parse_hanja_line.
  destruct (is_empty (strip line)) eqn:Hempty; [done|].
  destruct (startswith (strip line) [hash]) eqn:Hhash; [done|]. simpl.
  destruct (split colon (strip line)) as [|f0 [|f1 [|f2 others]]] eqn:Hsplit;
    try done.
  simpl. destruct (is_empty (strip f0) || is_empty (strip f1)); [done|].
  intros [= <- _ _].
  rewrite (split_head_hash _ _ _ Hsplit) in Hhash.
  destruct (split_first_field _ _ _ Hsplit) as [->|Hhead]; [done|].
  change (startswith (strip f0) [hash] = false).
  rewrite startswith_one in *. rewrite strip_head.
  destruct f0 as [|c t]; [done|]. simpl in Hhead.
  assert (isspace c = false) as Hc
    by (apply (strip_no_leading_space line); by rewrite <- Hhead).
  by rewrite lstrip_nonspace.
Qed.

(** X4.  The hangul of a returned entry never begins with the comment
    marker. *)
Theorem parse_hangul_not_comment line hg hj mn :
  parse_hanja_line line = Some (hg, hj, mn) → startswith hg [hash] = false.
Proof. apply parse_some_not_comment. Qed.

Lemma clean_strip s : clean s → strip s = s.
Proof.
  intros (_ & Hhead & Hlast).
  assert (lstrip s = s) as Hl.
  { destruct s as [|c t]; [done|]. apply lstrip_nonspace. by apply Hhead. }
  unfold strip. rewrite Hl. unfold rstrip.
  destruct (rev s) as [|d t] eqn:Hrev; [by apply (f_equal (@rev N)) in Hrev;
    rewrite rev_involutive in Hrev|].
  assert (last s = Some d) as Hd.
  { apply (f_equal (@rev N)) in Hrev. rewrite rev_involutive in Hrev.
    subst s. simpl. apply last_snoc. }
  rewrite lstrip_nonspace by by apply Hlast.
  by rewrite <- Hrev, rev_involutive.
Qed.

Lemma parse_format e :
  well_formed e → startswith e.1.1 [hash] = false →
  parse_hanja_line (format_entry e) = Some e.
Proof.
  destruct e as [[hg hj] mn]. simpl.
  intros (Hg & Hj & Hm & Hgne & Hjne) Hhash.
  rewrite parse_three; rewrite ?clean_strip; try done.
  - apply Hg.
  - apply Hj.
  - apply Hm.
Qed.

(** X5.  Writing an entry in the [hangul:hanja:meaning] format and parsing
    the line gives the entry back, when its fields hold no colon and no
    white space at either end, hangul and hanja are not empty and the hangul
    does not begin with the comment marker. *)
Theorem parse_format_entry e :
  well_formed e → startswith e.1.1 [hash] = false →
  parse_hanja_line (format_entry e) = Some e.
Proof. apply parse_format. Qed.

(** X6.  The parser normalises: the entry it returns for a line, written
    back in the line format, parses to the same entry. *)
Theorem parse_normalises line e :
  parse_hanja_line line = Some e →
  parse_hanja_line (format_entry e) = Some e.
Proof.
  intros Hparse. apply parse_format.
  - by eapply parse_well_formed.
  - destruct e as [[hg hj] mn]. by eapply parse_some_not_comment.
Qed.

End ParserEdges.

(** ** The builder: every way a build can end *)

Section BuilderEdges.

Variable db_as_text : database → str * read_end.

Implicit Types (fs : gmap string file) (d : database) (es : list entry)
  (inp out p : string).

(** A build either raises and leaves the schema-only database, or returns
    the number of the entries it inserted into it. *)
Lemma build_database_cases inp out fs :
  (∃ e, build_database db_as_text inp out fs
        = (Raised e, <[out := DbFile schema_only]> fs))
  ∨ (∃ es, build_database db_as_text inp out fs
           = (Returned (Z.of_nat (length es)),
              <[out := DbFile (insert_all schema_only es)]> fs)).
Proof.
  rewrite build_database_run.
  destruct (open_text db_as_text inp _) as [[[content []]|e] fs1]; eauto.
Qed.

Lemma records_from_ids i es :
  map id (records_from i es) = seqZ (i + 1) (Z.of_nat (length es)).
Proof.
  revert i. induction es as [|[[hg hj] mn] es IH]; intros i; [done|].
  cbn [records_from record_of map length]. rewrite IH.
  rewrite (seqZ_cons (i + 1)) by lia. simpl id.
  do 2 f_equal; lia.
Qed.

(** X9.  When a build returns, the count it reports is the number of records
    in the database at the output path. *)
Theorem build_count_is_record_count inp out fs n fs' d :
  build_database db_as_text inp out fs = (Returned n, fs') →
  fs' !! out = Some (DbFile d) →
  n = Z.of_nat (length (rows d)).
Proof.
  intros Hrun Hout.
  destruct (build_database_cases inp out fs) as [[e He]|[es Hes]];
    rewrite Hrun in *; [done|].
  injection Hes as -> ->. rewrite lookup_insert_eq in Hout.
  injection Hout as <-. simpl. by rewrite records_from_length.
Qed.

(** X10.  When a build returns [n], the ids of the records are 1, 2, ..., n
    in insertion order, and the AUTOINCREMENT counter stands at [n]. *)
Theorem build_ids_consecutive inp out fs n fs' d :
  build_database db_as_text inp out fs = (Returned n, fs') →
  fs' !! out = Some (DbFile d) →
  map id (rows d) = seqZ 1 n ∧ sequence d = n.
Proof.
  intros Hrun Hout.
  destruct (build_database_cases inp out fs) as [[e He]|[es Hes]];
    rewrite Hrun in *; [done|].
  injection Hes as -> ->. rewrite lookup_insert_eq in Hout.
  injection Hout as <-. simpl. by rewrite records_from_ids.
Qed.

End BuilderEdges.

(** ** Appending lines to the input *)

Section AppendedInput.

Implicit Types (x y z s : str) (c d : N).

Lemma translate_cons_other c s :
  c ≠ CR → translate_newlines (c :: s) = c :: translate_newlines s.
Proof. intros Hc. simpl. by destruct (N.eqb_spec c CR). Qed.

Lemma translate_CR_LF s :
  translate_newlines (CR :: LF :: s) = LF :: translate_newlines s.
Proof. reflexivity. Qed.

Lemma translate_CR_other d s :
  d ≠ LF →
  translate_newlines (CR :: d :: s) = LF :: translate_newlines (d :: s).
Proof.
  intros Hd. cbn [translate_newlines]. rewrite N.eqb_refl.
  by destruct (N.eqb_spec d LF).
Qed.

(** Translating the line ends of a text that ends in a newline, followed by
    more text, is translating both parts. *)
Lemma translate_newlines_app x y :
  translate_newlines (x ++ LF :: y)
  = translate_newlines (x ++ [LF]) ++ translate_newlines y
  ∧ ∃ z, translate_newlines (x ++ [LF]) = z ++ [LF].
Proof.
  remember (length x) as n eqn:Hn.
  assert (length x ≤ n)%nat as Hle by lia. clear Hn.
  revert x Hle. induction n as [|n IH]; intros x Hle.
  - destruct x; [|simpl in Hle; lia]. split; [done|by exists []].
  - destruct x as [|c x]; [split; [done|by exists []]|].
    simpl in Hle. destruct (decide (c = CR)) as [->|Hc].
    + destruct x as [|d x].
      * split; [done|by exists []].
      * simpl in Hle. destruct (decide (d = LF)) as [->|Hd].
        -- rewrite <- !app_comm_cons, !translate_CR_LF.
           destruct (IH x) as [Happ [z Hz]]; [lia|]. split.
           ++ by rewrite Happ.
           ++ exists (LF :: z). by rewrite Hz.
        -- rewrite <- !app_comm_cons, !translate_CR_other by done.
           destruct (IH (d :: x)) as [Happ [z Hz]]; [simpl; lia|].
           rewrite <- !app_comm_cons in Happ, Hz. split.
           ++ by rewrite Happ.
           ++ exists (LF :: z). by rewrite Hz.
    + rewrite <- !app_comm_cons, !translate_cons_other by done.
      destruct (IH x) as [Happ [z Hz]]; [lia|]. split.
      * by rewrite Happ.
      * exists (c :: z). by rewrite Hz.
Qed.

Lemma iter_lines_nonempty c s : iter_lines (c :: s) ≠ [].
Proof.
  simpl. destruct (c =? LF); [done|]. by destruct (iter_lines s).
Qed.

Lemma iter_lines_app z y :
  iter_lines (z ++ LF :: y) = iter_lines (z ++ [LF]) ++ iter_lines y.
Proof.
  induction z as [|c z IH]; [done|].
  simpl. destruct (c =? LF); [by rewrite IH|].
  rewrite IH. destruct (iter_lines (z ++ [LF])) as [|l ls] eqn:Hz; [|done].
  destruct z; by apply iter_lines_nonempty in Hz.
Qed.

Lemma text_lines_app x y :
  text_lines (x ++ LF :: y) = text_lines (x ++ [LF]) ++ text_lines y.
Proof.
  unfold text_lines.
  destruct (translate_newlines_app x y) as [-> [z ->]].
  rewrite <- app_assoc. apply iter_lines_app.
Qed.

Lemma parse_all_app x y :
  parse_all (x ++ LF :: y) = parse_all (x ++ [LF]) ++ parse_all y.
Proof. unfold parse_all. by rewrite text_lines_app, omap_app. Qed.

Lemma records_from_app i (es1 es2 : list entry) :
  records_from i (es1 ++ es2)
  = records_from i es1 ++ records_from (i + Z.of_nat (length es1)) es2.
Proof.
  revert i. induction es1 as [|e es1 IH]; intros i.
  - simpl. by rewrite Z.add_0_r.
  - cbn [app records_from length]. rewrite IH. simpl. do 3 f_equal. lia.
Qed.

Lemma insert_all_app (db : database) (es1 es2 : list entry) :
  insert_all db (es1 ++ es2) = insert_all (insert_all db es1) es2.
Proof.
  unfold insert_all. simpl. rewrite records_from_app, length_app, app_assoc.
  f_equal. lia.
Qed.

(** X12.  Appending lines to an input that ends in a newline appends their
    records: the build of the longer input returns the two counts added up
    and leaves the database of the shorter input with the entries of the
    appended lines inserted after it, the earlier records and ids
    unchanged. *)
Theorem build_appended_input db_as_text inp out
    (fs1 fs2 : gmap string file) x y :
  inp ≠ out →
  fs1 !! inp = Some (TextFile (x ++ [LF]) EndOfFile) →
  fs2 !! inp = Some (TextFile (x ++ LF :: y) EndOfFile) →
  ∃ n db,
    build_database db_as_text inp out fs1
    = (Returned n, <[out := DbFile db]> fs1)
    ∧ build_database db_as_text inp out fs2
      = (Returned (n + Z.of_nat (length (parse_all y)))%Z,
         <[out := DbFile (insert_all db (parse_all y))]> fs2).
Proof.
  intros Hne H1 H2.
  exists (Z.of_nat (length (parse_all (x ++ [LF])))),
    (insert_all schema_only (parse_all (x ++ [LF]))).
  split; [by apply build_database_readable|].
  rewrite (build_database_readable _ _ _ _ _ Hne H2).
  rewrite parse_all_app, insert_all_app, length_app.
  do 2 f_equal. lia.
Qed.

End AppendedInput.

(** ** [main]: the download, the build and the clean-up *)

Section ScriptFacts.

Variable db_as_text : database → str * read_end.
Variable remote : response.
Variable tmp_name : string.
Variable default_output : string.

Implicit Types (fs : gmap string file) (argv : list string)
  (inp out : string).

Lemma cleanup_exists p fs f :
  fs !! p = Some f → cleanup true p fs = (Returned (), delete p fs).
Proof.
  intros Hp. unfold cleanup.
  erewrite bind_returned by apply os_path_exists_run.
  rewrite Hp. unfold os_remove. by rewrite Hp.
Qed.


(** X13.  Without an input argument and with a complete download, [main]
    builds the default output from the downloaded text and removes the
    temporary file, whether the build returns or raises: the file system
    differs from the initial one at the default output path only. *)
Theorem main_download_cleans_up argv fs content ending :
  argv !! 1%nat = None →
  remote = Complete content ending →
  fs !! tmp_name = None →
  tmp_name ≠ default_output →
  main db_as_text remote tmp_name default_output argv fs
  = match ending with
    | EndOfFile =>
        (Completed,
         <[default_output :=
             DbFile (insert_all schema_only (parse_all content))]> fs)
    | DecodeFailure =>
        (BuildRaised UnicodeDecodeError,
         <[default_output := DbFile schema_only]> fs)
    end.
Proof.
  intros Hargv -> Hfresh Hne. unfold main, download_hanja_txt.
  rewrite Hargv.
  assert (argv !! 2%nat = None) as ->.
  { apply lookup_ge_None. apply lookup_ge_None in Hargv. lia. }
  simpl. rewrite insert_insert_eq.
  unfold run_build, try_finally. rewrite build_database_run.
  rewrite open_text_other by done.
  erewrite open_text_readable by apply lookup_insert_eq. cbn [fst].
  destruct ending.
  - erewrite cleanup_exists
      by (rewrite lookup_insert_ne by done; apply lookup_insert_eq).
    rewrite delete_insert_ne by done. by rewrite delete_insert_id.
  - erewrite cleanup_exists
      by (rewrite lookup_insert_ne by done; apply lookup_insert_eq).
    rewrite delete_insert_ne by done. by rewrite delete_insert_id.
Qed.

(** X14.  Without an input argument and with a download that fails, [main]
    raises before the build starts, and the only change is the temporary
    file: it is left behind, empty when nothing was received, and with the
    received part of the body when the body came short. *)
Theorem main_download_failure argv fs :
  argv !! 1%nat = None →
  (remote = NoResponse →
   main db_as_text remote tmp_name default_output argv fs
   = (DownloadRaised URLError, <[tmp_name := TextFile [] EndOfFile]> fs))
  ∧ (∀ content ending,
       remote = Truncated content ending →
       main db_as_text remote tmp_name default_output argv fs
       = (DownloadRaised ContentTooShortError,
          <[tmp_name := TextFile content ending]> fs)).
Proof.
  intros Hargv. unfold main, download_hanja_txt. rewrite Hargv.
  split.
  - by intros ->.
  - intros content ending ->. by rewrite insert_insert_eq.
Qed.


End ScriptFacts.

(** ** The further properties at concrete inputs *)

Lemma parse_surrounding_space_witness :
  forallb isspace (lit "  ") = true
  ∧ forallb isspace [CR; LF] = true
  ∧ parse_hanja_line (lit "  " ++ lit "a:b:c" ++ [CR; LF])
    = parse_hanja_line (lit "a:b:c").
Proof.
  split; [reflexivity|]. split; [reflexivity|].
  exact (parse_surrounding_space (lit "  ") (lit "a:b:c") [CR; LF]
           eq_refl eq_refl).
Defined.

Lemma parse_skips_blank_and_comment_witness :
  (forallb isspace (lit "  # a:b:c") = true
   ∨ ∃ w rest, forallb isspace w = true
               ∧ lit "  # a:b:c" = w ++ hash :: rest)
  ∧ parse_hanja_line (lit "  # a:b:c") = None.
Proof.
  assert (forallb isspace (lit "  # a:b:c") = true
          ∨ ∃ w rest, forallb isspace w = true
                      ∧ lit "  # a:b:c" = w ++ hash :: rest) as H
    by (right; exists (lit "  "), (lit " a:b:c"); split; reflexivity).
  split; [exact H|].
  exact (parse_skips_blank_and_comment (lit "  # a:b:c") H).
Defined.

Lemma parse_needs_two_colons_witness :
  (count_occ N.eq_dec (lit "onlytwo:fields") colon < 2)%nat
  ∧ parse_hanja_line (lit "onlytwo:fields") = None.
Proof.
  assert (count_occ N.eq_dec (lit "onlytwo:fields") colon < 2)%nat as H
    by (vm_compute; lia).
  split; [exact H|].
  exact (parse_needs_two_colons (lit "onlytwo:fields") H).
Defined.

Lemma parse_hangul_not_comment_witness :
  parse_hanja_line (lit " a # : b : c ")
  = Some (lit "a #", lit "b", lit "c")
  ∧ startswith (lit "a #") [hash] = false.
Proof.
  split; [reflexivity|].
  exact (parse_hangul_not_comment (lit " a # : b : c ")
           (lit "a #") (lit "b") (lit "c") eq_refl).
Defined.

Lemma parse_format_entry_witness :
  well_formed (lit "ab", lit "cd", lit "x y")
  ∧ startswith (lit "ab") [hash] = false
  ∧ parse_hanja_line (format_entry (lit "ab", lit "cd", lit "x y"))
    = Some (lit "ab", lit "cd", lit "x y").
Proof.
  assert (well_formed (lit "ab", lit "cd", lit "x y")) as H
    by (apply (parse_well_formed (lit "ab:cd:x y")); reflexivity).
  split; [exact H|]. split; [reflexivity|].
  exact (parse_format_entry (lit "ab", lit "cd", lit "x y") H eq_refl).
Defined.

Lemma parse_normalises_witness :
  parse_hanja_line (lit "  ab : cd : x y :ignored ")
  = Some (lit "ab", lit "cd", lit "x y")
  ∧ parse_hanja_line (format_entry (lit "ab", lit "cd", lit "x y"))
    = Some (lit "ab", lit "cd", lit "x y").
Proof.
  split; [reflexivity|].
  exact (parse_normalises (lit "  ab : cd : x y :ignored ")
           (lit "ab", lit "cd", lit "x y") eq_refl).
Defined.

Lemma build_count_is_record_count_witness :
  build_database binary_garbage "hanja.txt" "hanja.db" e2e_fs
  = (Returned 3%Z, <["hanja.db" := DbFile e2e_db]> e2e_fs)
  ∧ (<["hanja.db" := DbFile e2e_db]> e2e_fs) !! "hanja.db"
    = Some (DbFile e2e_db)
  ∧ 3%Z = Z.of_nat (length (rows e2e_db)).
Proof.
  assert (build_database binary_garbage "hanja.txt" "hanja.db" e2e_fs
          = (Returned 3%Z, <["hanja.db" := DbFile e2e_db]> e2e_fs)) as Hrun
    by (by vm_compute).
  split; [exact Hrun|]. split; [reflexivity|].
  exact (build_count_is_record_count binary_garbage "hanja.txt" "hanja.db"
           e2e_fs _ _ e2e_db Hrun eq_refl).
Defined.

Lemma build_ids_consecutive_witness :
  build_database binary_garbage "hanja.txt" "hanja.db" e2e_fs
  = (Returned 3%Z, <["hanja.db" := DbFile e2e_db]> e2e_fs)
  ∧ (<["hanja.db" := DbFile e2e_db]> e2e_fs) !! "hanja.db"
    = Some (DbFile e2e_db)
  ∧ map id (rows e2e_db) = seqZ 1 3 ∧ sequence e2e_db = 3%Z.
Proof.
  assert (build_database binary_garbage "hanja.txt" "hanja.db" e2e_fs
          = (Returned 3%Z, <["hanja.db" := DbFile e2e_db]> e2e_fs)) as Hrun
    by (by vm_compute).
  split; [exact Hrun|]. split; [reflexivity|].
  exact (build_ids_consecutive binary_garbage "hanja.txt" "hanja.db"
           e2e_fs _ _ e2e_db Hrun eq_refl).
Defined.

Lemma build_appended_input_witness :
  "hanja.txt" ≠ "hanja.db"
  ∧ ({[ "hanja.txt" := TextFile (lit "a:b:c" ++ [LF]) EndOfFile ]}
       : gmap string file) !! "hanja.txt"
    = Some (TextFile (lit "a:b:c" ++ [LF]) EndOfFile)
  ∧ ({[ "hanja.txt" := TextFile (lit "a:b:c" ++ LF :: lit "d:e:f") EndOfFile ]}
       : gmap string file) !! "hanja.txt"
    = Some (TextFile (lit "a:b:c" ++ LF :: lit "d:e:f") EndOfFile)
  ∧ ∃ n db,
      build_database binary_garbage "hanja.txt" "hanja.db"
        {[ "hanja.txt" := TextFile (lit "a:b:c" ++ [LF]) EndOfFile ]}
      = (Returned n,
         <["hanja.db" := DbFile db]>
           {[ "hanja.txt" := TextFile (lit "a:b:c" ++ [LF]) EndOfFile ]})
      ∧ build_database binary_garbage "hanja.txt" "hanja.db"
          {[ "hanja.txt" :=
               TextFile (lit "a:b:c" ++ LF :: lit "d:e:f") EndOfFile ]}
        = (Returned (n + Z.of_nat (length (parse_all (lit "d:e:f"))))%Z,
           <["hanja.db" := DbFile (insert_all db (parse_all (lit "d:e:f")))]>
             {[ "hanja.txt" :=
                  TextFile (lit "a:b:c" ++ LF :: lit "d:e:f") EndOfFile ]}).
Proof.
  assert ("hanja.txt" ≠ "hanja.db") as Hne by done.
  split; [exact Hne|]. split; [reflexivity|]. split; [reflexivity|].
  exact (build_appended_input binary_garbage "hanja.txt" "hanja.db"
           {[ "hanja.txt" := TextFile (lit "a:b:c" ++ [LF]) EndOfFile ]}
           {[ "hanja.txt" :=
                TextFile (lit "a:b:c" ++ LF :: lit "d:e:f") EndOfFile ]}
           (lit "a:b:c") (lit "d:e:f") Hne eq_refl eq_refl).
Defined.

Lemma main_download_cleans_up_witness :
  ["build_hanja_db.py"] !! 1%nat = None
  ∧ Complete e2e_text EndOfFile = Complete e2e_text EndOfFile
  ∧ delete "hanja.txt" e2e_fs !! "tmp.txt" = None
  ∧ "tmp.txt" ≠ "hanja.db"
  ∧ main binary_garbage (Complete e2e_text EndOfFile) "tmp.txt" "hanja.db"
      ["build_hanja_db.py"] (delete "hanja.txt" e2e_fs)
    = (Completed,
       <["hanja.db" := DbFile (insert_all schema_only (parse_all e2e_text))]>
         (delete "hanja.txt" e2e_fs)).
Proof.
  assert ("tmp.txt" ≠ "hanja.db") as Hne by done.
  split; [reflexivity|]. split; [reflexivity|]. split; [reflexivity|].
  split; [exact Hne|].
  exact (main_download_cleans_up binary_garbage (Complete e2e_text EndOfFile)
           "tmp.txt" "hanja.db" ["build_hanja_db.py"]
           (delete "hanja.txt" e2e_fs) e2e_text EndOfFile
           eq_refl eq_refl eq_refl Hne).
Defined.

Lemma main_download_failure_witness :
  ["build_hanja_db.py"] !! 1%nat = None
  ∧ main binary_garbage (Truncated (lit "a:b:c") DecodeFailure) "tmp.txt"
      "hanja.db" ["build_hanja_db.py"] e2e_fs
    = (DownloadRaised ContentTooShortError,
       <["tmp.txt" := TextFile (lit "a:b:c") DecodeFailure]> e2e_fs).
Proof.
  split; [reflexivity|].
  exact (proj2 (main_download_failure binary_garbage
                  (Truncated (lit "a:b:c") DecodeFailure) "tmp.txt"
                  "hanja.db" ["build_hanja_db.py"] e2e_fs eq_refl)
           (lit "a:b:c") DecodeFailure eq_refl).
Defined.


(** ** The insertion loop *)

Section Transaction.

Implicit Types (fs : gmap string file) (c : connection) (e : entry).

Lemma execute_insert_fs c e fs : (execute_insert c e fs).2 = fs.
Proof.
  destruct c as [p [d|]], e as [[hg hj] mn];
    unfold execute_insert, conn_view, mbind, io_mbind, io_bind, read_file;
    simpl.
  - by destruct (has_table d).
  - destruct (fs !! p) as [[content ending|d|]|]; simpl; try done.
    by destruct (has_table d).
Qed.

Lemma execute_insert_path c e fs c' fs' :
  execute_insert c e fs = (Returned c', fs') → db_path c' = db_path c.
Proof.
  destruct c as [p [d|]], e as [[hg hj] mn];
    unfold execute_insert, conn_view, mbind, io_mbind, io_bind, read_file;
    simpl.
  - destruct (has_table d); simpl; [by intros [= <- _]|done].
  - destruct (fs !! p) as [[content ending|d|]|]; simpl; try done.
    destruct (has_table d); simpl; [by intros [= <- _]|done].
Qed.

End Transaction.

(** ** The build on a disk that can refuse *)

Section LocatedSteps.

Context {A B : Type}.
Implicit Types (m : dio A) (k : A → dio B) (d : disk).

Lemma dbind_returned m k d a d' :
  m d = (Returned a, d') → (m ≫= k) d = k a d'.
Proof. intros H. unfold mbind, dio_mbind, dio_bind. by rewrite H. Qed.

Lemma dbind_raised m k d e d' :
  m d = (Raised e, d') → (m ≫= k) d = (Raised e, d').
Proof. intros H. unfold mbind, dio_mbind, dio_bind. by rewrite H. Qed.

Lemma on_files_run (f : io A) fs ds ss r fs' :
  f fs = (r, fs') → on_files f (Disk fs ds ss) = (r, Disk fs' ds ss).
Proof. intros H. unfold on_files. simpl. by rewrite H. Qed.

End LocatedSteps.

Section LocatedFacts.

Variable db_as_text : database → str * read_end.

Implicit Types (fs : gmap string file) (ds ss : gset string) (d : disk)
  (inp out p : string) (c : connection).

Lemma is_directory_no p fs ds ss :
  p ∉ ds → is_directory p (Disk fs ds ss) = (Returned false, Disk fs ds ss).
Proof. intros H. unfold is_directory. simpl. by rewrite bool_decide_eq_false_2. Qed.

Lemma is_directory_yes p fs ds ss :
  p ∈ ds → is_directory p (Disk fs ds ss) = (Returned true, Disk fs ds ss).
Proof. intros H. unfold is_directory. simpl. by rewrite bool_decide_eq_true_2. Qed.

Lemma is_sealed_no p fs ds ss :
  p ∉ ss → is_sealed p (Disk fs ds ss) = (Returned false, Disk fs ds ss).
Proof. intros H. unfold is_sealed. simpl. by rewrite bool_decide_eq_false_2. Qed.

Lemma is_sealed_yes p fs ds ss :
  p ∈ ss → is_sealed p (Disk fs ds ss) = (Returned true, Disk fs ds ss).
Proof. intros H. unfold is_sealed. simpl. by rewrite bool_decide_eq_true_2. Qed.

Lemma located_exists p fs ds ss :
  p ∉ ds →
  Located.os_path_exists p (Disk fs ds ss)
  = (Returned (match fs !! p with Some _ => true | None => false end),
     Disk fs ds ss).
Proof.
  intros Hd. unfold Located.os_path_exists.
  erewrite dbind_returned by by apply is_directory_no.
    cbv beta iota.
  by apply on_files_run.
Qed.

Lemma located_remove_if_exists p fs ds ss :
  p ∉ ds → p ∉ ss →
  (if match fs !! p with Some _ => true | None => false end
   then Located.os_remove p else dio_ret tt) (Disk fs ds ss)
  = (Returned (), Disk (delete p fs) ds ss).
Proof.
  intros Hd Hs. destruct (fs !! p) eqn:Hp.
  - unfold Located.os_remove.
    erewrite dbind_returned by by apply is_directory_no.
    cbv beta iota.
    erewrite dbind_returned by by apply is_sealed_no.
    cbv beta iota.
    apply on_files_run. unfold os_remove. by rewrite Hp.
  - unfold dio_ret. by rewrite delete_id.
Qed.

Lemma located_connect_new p fs ds ss :
  p ∉ ds → p ∉ ss → fs !! p = None →
  Located.sqlite3_connect p (Disk fs ds ss)
  = (Returned (Connection p None),
     Disk (<[p := DbFile empty_database]> fs) ds ss).
Proof.
  intros Hd Hs Hp. unfold Located.sqlite3_connect.
  erewrite dbind_returned by by apply is_directory_no.
    cbv beta iota.
  erewrite dbind_returned by by apply located_exists.
    cbv beta iota.
  erewrite dbind_returned by by apply is_sealed_no.
    cbv beta iota.
  rewrite Hp. simpl. apply on_files_run. by apply sqlite3_connect_new.
Qed.

Lemma located_execute stmt c fs ds ss :
  db_path c ∉ ss →
  Located.execute stmt c (Disk fs ds ss) = on_files (stmt c) (Disk fs ds ss).
Proof.
  intros Hs. unfold Located.execute.
  by erewrite dbind_returned by by apply is_sealed_no.
Qed.

(** On a path that is not sealed the loop is the loop on the files. *)
Lemma located_insert_lines lines c n fs ds ss :
  db_path c ∉ ss →
  Located.insert_lines lines c n (Disk fs ds ss)
  = on_files (insert_lines lines c n) (Disk fs ds ss).
Proof.
  revert c n. induction lines as [|line lines IH]; intros c n Hs; [done|].
  simpl. destruct (parse_hanja_line line) as [e|]; [|by apply IH].
  unfold Located.execute_insert.
  pose proof (execute_insert_fs c e fs) as Hfs.
  destruct (execute_insert c e fs) as [[c'|err] fs'] eqn:Hins;
    simpl in Hfs; subst fs'.
  - erewrite dbind_returned; cycle 1.
    { rewrite located_execute by done. by apply on_files_run. }
    rewrite IH by by rewrite (execute_insert_path _ _ _ _ _ Hins).
    unfold on_files, mbind, io_mbind, io_bind. simpl. by rewrite Hins.
  - erewrite dbind_raised; cycle 1.
    { rewrite located_execute by done. by apply on_files_run. }
    unfold on_files, mbind, io_mbind, io_bind. simpl. by rewrite Hins.
Qed.

Lemma located_open_text_disk inp d :
  (Located.open_text db_as_text inp d).2 = d.
Proof.
  destruct d as [fs ds ss].
  unfold Located.open_text, is_directory, refuse, mbind, dio_mbind, dio_bind.
  simpl. destruct (bool_decide (inp ∈ ds)); [done|].
  unfold on_files. simpl.
  pose proof (open_text_fs db_as_text inp fs) as Hfs.
  destruct (open_text db_as_text inp fs) as [r fs1]. simpl in *.
  by subst fs1.
Qed.

(** One run on a usable output location: as on the files, with what the
    disk answers when the input is opened. *)
Lemma located_build_run inp out fs ds ss :
  out ∉ ds → out ∉ ss →
  Located.build_database db_as_text inp out (Disk fs ds ss) =
    match Located.open_text db_as_text inp
            (Disk (<[out := DbFile schema_only]> fs) ds ss) with
    | (Returned (content, EndOfFile), _) =>
        (Returned (Z.of_nat (length (parse_all content))),
         Disk (<[out := DbFile (insert_all schema_only (parse_all content))]> fs)
           ds ss)
    | (Returned (_, DecodeFailure), _) =>
        (Raised UnicodeDecodeError,
         Disk (<[out := DbFile schema_only]> fs) ds ss)
    | (Raised e, _) =>
        (Raised e, Disk (<[out := DbFile schema_only]> fs) ds ss)
    end.
Proof.
  intros Hd Hs. unfold Located.build_database.
  erewrite dbind_returned by by apply located_exists.
    cbv beta iota.
  erewrite dbind_returned by by apply located_remove_if_exists.
  erewrite dbind_returned
    by (by apply located_connect_new; [| |apply lookup_delete_eq]).
  rewrite insert_delete_eq.
  erewrite dbind_returned; cycle 1.
  { unfold Located.execute_create_table. rewrite located_execute by done.
    apply on_files_run.
    by eapply execute_create_table_run; [apply lookup_insert_eq|]. }
  rewrite insert_insert_eq.
  erewrite dbind_returned; cycle 1.
  { unfold Located.execute_create_index. rewrite located_execute by done.
    apply on_files_run.
    by eapply execute_create_index_run; [apply lookup_insert_eq| |]. }
  rewrite insert_insert_eq. simpl. fold schema_only.
  set (fs0 := <[out := DbFile schema_only]> fs).
  pose proof (located_open_text_disk inp (Disk fs0 ds ss)) as Hsame.
  destruct (Located.open_text db_as_text inp (Disk fs0 ds ss))
    as [[[content ending]|e] d1] eqn:Hopen; simpl in Hsame; subst d1.
  - assert (Located.insert_lines (text_lines content) (Connection out None) 0
              (Disk fs0 ds ss)
            = (Returned (match parse_all content with
                         | [] => Connection out None
                         | es => Connection out (Some (insert_all schema_only es))
                         end,
                         Z.of_nat (length (parse_all content))),
               Disk fs0 ds ss)) as Hloop.
    { rewrite located_insert_lines by done. apply on_files_run.
      rewrite (insert_lines_fresh _ _ schema_only)
        by (done || apply lookup_insert_eq).
      by rewrite Z.add_0_l. }
    destruct ending.
    + erewrite dbind_returned; cycle 1.
      { erewrite dbind_returned by exact Hopen. simpl.
        erewrite dbind_returned by exact Hloop. reflexivity. }
      simpl. destruct (parse_all content) as [|e es] eqn:Hes.
      * unfold Located.conn_commit.
        erewrite dbind_returned
          by (rewrite located_execute by done; by apply on_files_run).
        by rewrite insert_all_nil.
      * unfold Located.conn_commit.
        erewrite dbind_returned; cycle 1.
        { rewrite located_execute by done. apply on_files_run.
          unfold conn_commit, write_file, mbind, io_mbind, io_bind. simpl.
          reflexivity. }
        subst fs0. by rewrite insert_insert_eq.
    + erewrite dbind_raised; [reflexivity|].
      erewrite dbind_returned by exact Hopen. simpl.
      erewrite dbind_returned by exact Hloop. reflexivity.
  - erewrite dbind_raised; [reflexivity|].
    by erewrite dbind_raised by exact Hopen.
Qed.

(** On an output location that cannot be used the build raises before it
    changes anything. *)
Lemma located_build_refused inp out d :
  out ∈ dirs d ∨ out ∈ sealed d →
  ∃ e, Located.build_database db_as_text inp out d = (Raised e, d).
Proof.
  destruct d as [fs ds ss]. simpl. intros Hout.
  unfold Located.build_database.
  destruct (decide (out ∈ ds)) as [Hd|Hd].
  - exists IsADirectoryError.
    erewrite dbind_returned; cycle 1.
    { unfold Located.os_path_exists.
      erewrite dbind_returned by by apply is_directory_yes.
    cbv beta iota. reflexivity. }
    erewrite dbind_raised; [reflexivity|].
    unfold Located.os_remove.
    by erewrite dbind_returned by by apply is_directory_yes.
  - destruct Hout as [?|Hs]; [done|].
    erewrite dbind_returned by by apply located_exists.
    cbv beta iota.
    destruct (fs !! out) eqn:Hp.
    + exists PermissionError.
      erewrite dbind_raised; [reflexivity|].
      unfold Located.os_remove.
      erewrite dbind_returned by by apply is_directory_no.
    cbv beta iota.
      by erewrite dbind_returned by by apply is_sealed_yes.
    + exists OperationalError.
      erewrite dbind_returned by reflexivity.
      erewrite dbind_raised; [reflexivity|].
      unfold Located.sqlite3_connect.
      erewrite dbind_returned by by apply is_directory_no.
    cbv beta iota.
      erewrite dbind_returned by by apply located_exists.
    cbv beta iota.
      erewrite dbind_returned by by apply is_sealed_yes.
    cbv beta iota.
      by rewrite Hp.
Qed.

(** The two embeddings agree where the first one applies. *)
Lemma located_build_agrees inp out d :
  usable d out → inp ∉ dirs d →
  Located.build_database db_as_text inp out d
  = on_files (build_database db_as_text inp out) d.
Proof.
  destruct d as [fs ds ss]. intros [Hd Hs] Hin. simpl in *.
  rewrite located_build_run by done.
  unfold on_files. simpl. rewrite build_database_run.
  unfold Located.open_text.
  erewrite dbind_returned by by apply is_directory_no.
    cbv beta iota.
  unfold on_files. simpl.
  pose proof (open_text_fs db_as_text inp (<[out := DbFile schema_only]> fs))
    as Hfs.
  destruct (open_text db_as_text inp _) as [[[content []]|e] fs1];
    simpl in Hfs; by subst fs1.
Qed.

End LocatedFacts.

Section LocatedClaims.

Variable db_as_text : database → str * read_end.

Implicit Types (d : disk) (inp out p : string).


(** X7.  Whatever its outcome, the build leaves the input file as it was,
    when the input path is neither the output path nor the path of the
    output's rollback journal, which SQLite owns. *)
Theorem build_leaves_input inp out d :
  inp ≠ out → inp ≠ out +:+ "-journal" →
  files (Located.build_database db_as_text inp out d).2 !! inp
  = files d !! inp.
Proof.
  intros Hne _. destruct d as [fs ds ss].
  destruct (decide (out ∈ ds)) as [Hd|Hd];
    [|destruct (decide (out ∈ ss)) as [Hs|Hs]].
  - by destruct (located_build_refused db_as_text inp out (Disk fs ds ss))
      as [e ->]; [left|].
  - by destruct (located_build_refused db_as_text inp out (Disk fs ds ss))
      as [e ->]; [right|].
  - rewrite located_build_run by done.
    destruct (Located.open_text db_as_text inp _) as [[[content []]|e] d1];
      simpl; by rewrite lookup_insert_ne.
Qed.


(** X11.  When the input path is the output path and the location can be
    used, the file there is removed before it is read: the outcome and the
    database left do not depend on what the disk held. *)
Theorem build_same_path_ignores_content p d d' :
  usable d p → usable d' p →
  (Located.build_database db_as_text p p d).1
  = (Located.build_database db_as_text p p d').1
  ∧ files (Located.build_database db_as_text p p d).2 !! p
    = files (Located.build_database db_as_text p p d').2 !! p.
Proof.
  destruct d as [fs ds ss], d' as [fs' ds' ss'].
  intros [Hd Hs] [Hd' Hs']. simpl in *.
  rewrite !located_build_run by done.
  unfold Located.open_text.
  erewrite !dbind_returned by by apply is_directory_no.
  unfold on_files, open_text, mbind, io_mbind, io_bind, read_file. simpl.
  rewrite !lookup_insert_eq. simpl.
  destruct (db_as_text schema_only) as [content []]; simpl;
    by rewrite !lookup_insert_eq.
Qed.

End LocatedClaims.



Lemma build_leaves_input_witness :
  "hanja.txt" ≠ "hanja.db"
  ∧ "hanja.txt" ≠ "hanja.db" +:+ "-journal"
  ∧ files (Located.build_database binary_garbage "hanja.txt" "hanja.db"
             (plain e2e_fs)).2 !! "hanja.txt"
    = files (plain e2e_fs) !! "hanja.txt".
Proof.
  assert ("hanja.txt" ≠ "hanja.db") as Hne by done.
  assert ("hanja.txt" ≠ "hanja.db" +:+ "-journal") as Hnj by done.
  split; [exact Hne|]. split; [exact Hnj|].
  exact (build_leaves_input binary_garbage "hanja.txt" "hanja.db"
           (plain e2e_fs) Hne Hnj).
Defined.


Lemma build_same_path_ignores_content_witness :
  usable (plain e2e_fs) "hanja.db"
  ∧ usable (plain ∅) "hanja.db"
  ∧ (Located.build_database binary_garbage "hanja.db" "hanja.db"
       (plain e2e_fs)).1
    = (Located.build_database binary_garbage "hanja.db" "hanja.db"
         (plain ∅)).1
  ∧ files (Located.build_database binary_garbage "hanja.db" "hanja.db"
             (plain e2e_fs)).2 !! "hanja.db"
    = files (Located.build_database binary_garbage "hanja.db" "hanja.db"
               (plain ∅)).2 !! "hanja.db".
Proof.
  assert (usable (plain e2e_fs) "hanja.db") as H1 by compute_done.
  assert (usable (plain ∅) "hanja.db") as H2 by compute_done.
  split; [exact H1|]. split; [exact H2|].
  exact (build_same_path_ignores_content binary_garbage "hanja.db"
           (plain e2e_fs) (plain ∅) H1 H2).
Defined.
